(** * Linode provider: the Image resource controller and the Volume change detector

    A shallow embedding of [linode/resource_linode_image.go] and of the
    change detector exercised by [TestAccLinodeVolume_detectVolumeIDChange].

    Go's [int] is read as [Z] (no arithmetic is performed on the identifiers,
    so no wrap-around arises), a pointer that may be nil as [option], the
    attribute bag of [schema.ResourceData] as a [gmap] from attribute names
    to values.  The API client is an external collaborator: its replies are
    given by an arbitrary state machine over a type of remote worlds, and
    every request the controller issues is recorded, with its reply, in a
    trace.

    The second part embeds the acceptance checks of the SSH key and Volume
    resources ([testAccCheckLinode...Exists], [...Destroy]) and the
    configurations the acceptance tests are run on. *)

From Stdlib Require Import ZArith Ascii String List DecimalString.
From stdpp Require Import base option gmap strings.

Import ListNotations.
Local Open Scope Z_scope.
Local Open Scope string_scope.

(** ** The change detector *)

Module Volume.

(** Modelled from the spec: the comparison inside [detectVolumeIDChange]
    (the spec's [DetectOptionalIntChange]), whose body is not among the
    sources, only its test is.  The spec, section 4.2: two optional
    integers are equal if both are absent, unequal if exactly one is
    absent, unequal if both are present but differ in value. *)
Definition optionalIntEqual (have want : option Z) : bool :=
  match have, want with
  | None, None => true
  | Some h, Some w => Z.eqb h w
  | _, _ => false
  end.

(** Modelled from the spec: [detectVolumeIDChange] itself, missing from the
    sources like its helper above; a change is detected when the two
    optional integers are not equal in the sense of section 4.2. *)
Definition detectVolumeIDChange (have want : option Z) : bool :=
  negb (optionalIntEqual have want).

(** [TestAccLinodeVolume_detectVolumeIDChange]: the messages the test
    reports through [t.Errorf], in order; the test passes when there are
    none. *)
Definition TestAccLinodeVolume_detectVolumeIDChange : list string :=
  let oneValue := 1 in
  let twoValue := 2 in
  let one := Some oneValue in
  let two := Some twoValue in
  (if detectVolumeIDChange None None
   then ["should not detect change when both are nil"] else [])
  ++ (if negb (detectVolumeIDChange None one)
      then ["should detect change when have is nil and want is not nil"] else [])
  ++ (if negb (detectVolumeIDChange one None)
      then ["should detect change when want is nil and have is not nil"] else [])
  ++ (if negb (detectVolumeIDChange one two)
      then ["should detect change when values differ"] else []).

End Volume.

(** ** Values shared by the controller and the client *)

(** [%d] of an integer. *)
Definition decimal (z : Z) : string := NilZero.string_of_int (Z.to_int z).

(** A Go [error] value: either a [*linodego.Error], which carries the status
    code of the API's answer, or any other error, known by its text.
    [fmt.Errorf] builds errors of the second kind. *)
Inductive error : Type :=
  | LinodegoError (Code : Z) (Message : string)
  | PlainError (text : string).

Inductive DiskStatus : Type := DiskReady | DiskNotReady | DiskDeleted.

(** A value of the attribute bag. *)
Inductive Value : Type :=
  | VString (s : string)
  | VInt (z : Z)
  | VBool (b : bool).

#[global] Instance error_eq_dec : EqDecision error.
Proof. solve_decision. Defined.

#[global] Instance Value_eq_dec : EqDecision Value.
Proof. solve_decision. Defined.

(** [linodego.ImageCreateOptions], as far as the controller fills it. *)
Record ImageCreateOptions : Type := {
  CreateOptions_DiskID : Z;
  CreateOptions_Label : string;
  CreateOptions_Description : string;
}.

(** [linodego.ImageUpdateOptions]: the label is a plain string whose zero
    value (the empty string) is left out of the request, the description a
    pointer that is left out when nil. *)
Record ImageUpdateOptions : Type := {
  UpdateOptions_Label : string;
  UpdateOptions_Description : option string;
}.

(** [schema.ResourceData]: the ID, the attribute values of the last-known
    state, those of the plan (state and configuration merged), those written
    by [d.Set] during the operation, the partial-mode flag with the keys
    marked by [d.SetPartial], and the operation timeouts in whole seconds. *)
Record ResourceData : Type := {
  Id : string;
  state : gmap string Value;
  planned : gmap string Value;
  written : gmap string Value;
  partial : bool;
  partialKeys : gset string;
  timeoutSeconds : gmap string Z;
}.

(** [d.Get(key)]: what was written wins over the plan. *)
Definition Get (d : ResourceData) (key : string) : option Value :=
  match written d !! key with
  | Some v => Some v
  | None => planned d !! key
  end.

(** [d.Get(key).(string)] and [d.Get(key).(int)] on attributes the schema
    declares with these types: an attribute that is not set reads as the
    zero value of its type. *)
Definition GetString (d : ResourceData) (key : string) : string :=
  match Get d key with Some (VString s) => s | _ => "" end.

Definition GetInt (d : ResourceData) (key : string) : Z :=
  match Get d key with Some (VInt z) => z | _ => 0 end.

(** [d.HasChange(key)]: the plan differs from the last-known state. *)
Definition HasChange (d : ResourceData) (key : string) : bool :=
  bool_decide (state d !! key ≠ planned d !! key).

(** [int(d.Timeout(key).Seconds())]: the configured timeout of the
    operation, and the framework's default of twenty minutes without one. *)
Definition Timeout (d : ResourceData) (key : string) : Z :=
  default 1200 (timeoutSeconds d !! key).

Definition SetId (v : string) (d : ResourceData) : ResourceData :=
  {| Id := v; state := state d; planned := planned d; written := written d;
     partial := partial d; partialKeys := partialKeys d;
     timeoutSeconds := timeoutSeconds d |}.

Definition d_Set (key : string) (v : Value) (d : ResourceData) : ResourceData :=
  {| Id := Id d; state := state d; planned := planned d;
     written := <[key := v]> (written d);
     partial := partial d; partialKeys := partialKeys d;
     timeoutSeconds := timeoutSeconds d |}.

Definition Partial (on : bool) (d : ResourceData) : ResourceData :=
  {| Id := Id d; state := state d; planned := planned d; written := written d;
     partial := on; partialKeys := partialKeys d;
     timeoutSeconds := timeoutSeconds d |}.

Definition SetPartial (key : string) (d : ResourceData) : ResourceData :=
  {| Id := Id d; state := state d; planned := planned d; written := written d;
     partial := partial d;
     partialKeys := if partial d then {[ key ]} ∪ partialKeys d else partialKeys d;
     timeoutSeconds := timeoutSeconds d |}.

(** The attributes [resourceLinodeImageRead] may write. *)
Definition imageKeys : list string :=
  ["label"; "description"; "type"; "size"; "vendor"; "created_by";
   "deprecated"; "is_public"; "created"; "expiry"].

(** How a Go function ends: it returns, or it panics. *)
Inductive Outcome (A : Type) : Type :=
  | Return (a : A)
  | Panic (reason : string).
Arguments Return {A} a.
Arguments Panic {A} reason.

(** ** The controller, over an arbitrary API client *)

Section Controller.

(** [time.Time] and its [Format(time.RFC3339)], of Go's standard library. *)
Context {Time : Type}.
Variable formatRFC3339 : Time -> string.

(** The text [Error()] gives for a [*linodego.Error]. *)
Variable linodegoErrorString : Z -> string -> string.

(** The states of the remote side. *)
Context {World : Type}.

(** [err.Error()], which [%s] prints. *)
Definition ErrorString (err : error) : string :=
  match err with
  | LinodegoError code message => linodegoErrorString code message
  | PlainError text => text
  end.

(** [linodego.Image] *)
Record Image : Type := {
  Image_ID : string;
  Image_CreatedBy : string;
  Image_Label : string;
  Image_Description : string;
  Image_Type : string;
  Image_Vendor : string;
  Image_Size : Z;
  Image_IsPublic : bool;
  Image_Deprecated : bool;
  Image_Created : option Time;
  Image_Expiry : option Time;
}.

(** [linodego.Client], restricted to the requests of this controller.  A
    request answers with an entity or with an error, never both, and may
    change the remote world.  The disk that [WaitForInstanceDiskStatus]
    returns is dropped by every caller, so only its error is kept. *)
Record Client : Type := {
  GetImage : string -> World -> (Image + error) * World;
  CreateImage : ImageCreateOptions -> World -> (Image + error) * World;
  UpdateImage : string -> ImageUpdateOptions -> World -> (Image + error) * World;
  DeleteImage : string -> World -> option error * World;
  WaitForInstanceDiskStatus :
    Z -> Z -> DiskStatus -> Z -> World -> option error * World;
}.

(** The [meta interface{}] handed to every operation. *)
Inductive Meta : Type :=
  | MetaClient (client : Client)
  | MetaOther.

(** *** The trace of requests *)

Inductive Call : Type :=
  | CallGetImage (id : string)
  | CallCreateImage (opts : ImageCreateOptions)
  | CallUpdateImage (id : string) (opts : ImageUpdateOptions)
  | CallDeleteImage (id : string)
  | CallWaitForInstanceDiskStatus
      (linodeID diskID : Z) (status : DiskStatus) (timeout : Z).

Inductive Reply : Type :=
  | GotImage (image : Image)
  | Succeeded
  | Failed (err : error).

Definition Event : Type := (Call * Reply)%type.

Definition replyOfImage (r : Image + error) : Reply :=
  match r with inl image => GotImage image | inr err => Failed err end.

Definition replyOfError (r : option error) : Reply :=
  match r with None => Succeeded | Some err => Failed err end.

(** *** The monad of an operation

    An operation runs on the resource data, the remote world and the trace
    so far; it returns a value or panics. *)

Record St : Type := {
  data : ResourceData;
  world : World;
  trace : list Event;
}.

Definition M (A : Type) : Type := St -> Outcome A * St.

#[local] Instance M_ret : MRet M := fun A a st => (Return a, st).

#[local] Instance M_bind : MBind M := fun A B k m st =>
  match m st with
  | (Return a, st') => k a st'
  | (Panic reason, st') => (Panic reason, st')
  end.

Definition panic {A : Type} (reason : string) : M A :=
  fun st => (Panic reason, st).

Definition getData : M ResourceData := fun st => (Return (data st), st).

Definition modifyData (f : ResourceData -> ResourceData) : M unit :=
  fun st =>
    (Return tt, {| data := f (data st); world := world st; trace := trace st |}).

(** A request: the client answers in the current world, the world moves
    on, the request and its reply are appended to the trace. *)
Definition request {A : Type} (c : Call) (f : World -> A * World)
    (reply : A -> Reply) : M A :=
  fun st =>
    let (r, w) := f (world st) in
    (Return r, {| data := data st; world := w;
                  trace := trace st ++ [(c, reply r)] |}).

Definition client_GetImage (client : Client) (id : string) : M (Image + error) :=
  request (CallGetImage id) (GetImage client id) replyOfImage.

Definition client_CreateImage (client : Client) (opts : ImageCreateOptions)
    : M (Image + error) :=
  request (CallCreateImage opts) (CreateImage client opts) replyOfImage.

Definition client_UpdateImage (client : Client) (id : string)
    (opts : ImageUpdateOptions) : M (Image + error) :=
  request (CallUpdateImage id opts) (UpdateImage client id opts) replyOfImage.

Definition client_DeleteImage (client : Client) (id : string) : M (option error) :=
  request (CallDeleteImage id) (DeleteImage client id) replyOfError.

Definition client_WaitForInstanceDiskStatus (client : Client)
    (linodeID diskID : Z) (status : DiskStatus) (timeout : Z) : M (option error) :=
  request (CallWaitForInstanceDiskStatus linodeID diskID status timeout)
          (WaitForInstanceDiskStatus client linodeID diskID status timeout)
          replyOfError.

(** [meta.(linodego.Client)], the form that panics on another type. *)
Definition assertClient (meta : Meta) : M Client :=
  match meta with
  | MetaClient client => mret client
  | MetaOther => panic "interface conversion: interface {} is not linodego.Client"
  end.

(** Reading a field through a pointer that may be nil. *)
Definition deref {A : Type} (p : option A) : M A :=
  match p with
  | Some a => mret a
  | None => panic "invalid memory address or nil pointer dereference"
  end.

(** The entity of a [(entity, error)] pair: nil when the request failed. *)
Definition pointerOf {A : Type} (r : A + error) : option A :=
  match r with inl a => Some a | inr _ => None end.

(** The type assertion of [err] to a pointer to [linodego.Error] holds and
    its [Code] is 404. *)
Definition isNotFound (err : error) : bool :=
  match err with
  | LinodegoError code _ => Z.eqb code 404
  | PlainError _ => false
  end.

(** *** [resourceLinodeImageExists] *)

Definition resourceLinodeImageExists (meta : Meta) : M (bool * option error) :=
  client ← assertClient meta;
  d ← getData;
  r ← client_GetImage client (Id d);
  match r with
  | inr err =>
      if isNotFound err then mret (false, None)
      else
        mret (false,
              Some (PlainError ("Error getting Linode Image ID " +:+ Id d
                                +:+ ": " +:+ ErrorString err)))
  | inl _ => mret (true, None)
  end.

(** *** [resourceLinodeImageRead]

    The error of the first [GetImage] is overwritten by the one of
    [resourceLinodeImageExists] before it is looked at; the warning sent to
    the log is not part of the model. *)

Definition resourceLinodeImageRead (meta : Meta) : M (option error) :=
  client ← assertClient meta;
  d ← getData;
  r ← client_GetImage client (Id d);
  let image := pointerOf r in
  '(found, err) ← resourceLinodeImageExists meta;
  match err with
  | Some err =>
      mret (Some (PlainError ("Error finding the specified Linode Image: "
                              +:+ ErrorString err)))
  | None =>
      if negb found then
        modifyData (SetId "");;
        mret None
      else
        image ← deref image;
        modifyData (d_Set "label" (VString (Image_Label image)));;
        modifyData (d_Set "description" (VString (Image_Description image)));;
        modifyData (d_Set "type" (VString (Image_Type image)));;
        modifyData (d_Set "size" (VInt (Image_Size image)));;
        modifyData (d_Set "vendor" (VString (Image_Vendor image)));;
        modifyData (d_Set "created_by" (VString (Image_CreatedBy image)));;
        modifyData (d_Set "deprecated" (VBool (Image_Deprecated image)));;
        modifyData (d_Set "is_public" (VBool (Image_IsPublic image)));;
        match Image_Created image with
        | Some t => modifyData (d_Set "created" (VString (formatRFC3339 t)))
        | None => mret tt
        end;;
        match Image_Expiry image with
        | Some t => modifyData (d_Set "expiry" (VString (formatRFC3339 t)))
        | None => mret tt
        end;;
        mret None
  end.

(** *** [resourceLinodeImageCreate] *)

(** The wait both halves of Create ask of the client: the disk of the
    instance is to become ready within the create timeout. *)
Definition createWait (d : ResourceData) : Call :=
  CallWaitForInstanceDiskStatus (GetInt d "linode_id") (GetInt d "disk_id")
    DiskReady (Timeout d "create").

Definition resourceLinodeImageCreate (meta : Meta) : M (option error) :=
  match meta with
  | MetaOther =>
      mret (Some (PlainError "Invalid Client when creating Linode Image"))
  | MetaClient client =>
      modifyData (Partial true);;
      d ← getData;
      let linodeID := GetInt d "linode_id" in
      let diskID := GetInt d "disk_id" in
      waited ← client_WaitForInstanceDiskStatus client linodeID diskID DiskReady
                 (Timeout d "create");
      match waited with
      | Some _ =>
          mret (Some (PlainError
            ("Error waiting for Linode Instance " +:+ decimal linodeID
             +:+ " Disk " +:+ decimal diskID
             +:+ " to become ready for taking an Image")))
      | None =>
          let createOpts :=
            {| CreateOptions_DiskID := diskID;
               CreateOptions_Label := GetString d "label";
               CreateOptions_Description := GetString d "description" |} in
          r ← client_CreateImage client createOpts;
          match r with
          | inr err =>
              mret (Some (PlainError ("Error creating a Linode Image: "
                                      +:+ ErrorString err)))
          | inl image =>
              modifyData (SetId (Image_ID image));;
              modifyData (SetPartial "label");;
              modifyData (SetPartial "description");;
              modifyData (Partial false);;
              d ← getData;
              waited ← client_WaitForInstanceDiskStatus client linodeID diskID
                         DiskReady (Timeout d "create");
              match waited with
              | Some _ =>
                  mret (Some (PlainError
                    ("Error waiting for Linode Instance " +:+ decimal linodeID
                     +:+ " Disk " +:+ decimal diskID
                     +:+ " to become ready while taking an Image")))
              | None =>
                  '(found, err) ← resourceLinodeImageExists meta;
                  match err with
                  | Some err =>
                      mret (Some (PlainError
                        ("Error finding the newly created Linode Image: "
                         +:+ ErrorString err)))
                  | None =>
                      if negb found then
                        mret (Some (PlainError
                          "The Linode Image failed to be created"))
                      else resourceLinodeImageRead meta
                  end
              end
          end
      end
  end.

(** *** [resourceLinodeImageUpdate] *)

Definition resourceLinodeImageUpdate (meta : Meta) : M (option error) :=
  client ← assertClient meta;
  d ← getData;
  r ← client_GetImage client (Id d);
  match r with
  | inr err =>
      mret (Some (PlainError ("Error fetching data about the current Image: "
                              +:+ ErrorString err)))
  | inl _ =>
      let updateOpts :=
        {| UpdateOptions_Label :=
             if HasChange d "label" then GetString d "label" else "";
           UpdateOptions_Description :=
             if HasChange d "description"
             then Some (GetString d "description") else None |} in
      r ← client_UpdateImage client (Id d) updateOpts;
      match r with
      | inr err => mret (Some err)
      | inl image =>
          modifyData (d_Set "label" (VString (Image_Label image)));;
          modifyData (d_Set "description" (VString (Image_Description image)));;
          resourceLinodeImageRead meta
      end
  end.

(** *** [resourceLinodeImageDelete] *)

Definition resourceLinodeImageDelete (meta : Meta) : M (option error) :=
  client ← assertClient meta;
  d ← getData;
  r ← client_DeleteImage client (Id d);
  match r with
  | Some err =>
      mret (Some (PlainError ("Error deleting Linode Image " +:+ Id d
                              +:+ ": " +:+ ErrorString err)))
  | None =>
      modifyData (SetId "");;
      mret None
  end.

(** Running an operation from a resource and a world, with an empty trace. *)
Definition run {A : Type} (op : M A) (d : ResourceData) (w : World)
    : Outcome A * St :=
  op {| data := d; world := w; trace := [] |}.

End Controller.

(** ** A scripted client

    A test double: the remote world is the list of replies still to be
    given, and every request takes the next one.  Timestamps are kept as
    already formatted strings. *)

Module Script.

Definition Time : Type := string.
Definition formatRFC3339 (t : Time) : string := t.

Definition linodegoErrorString (code : Z) (message : string) : string :=
  "[" +:+ decimal code +:+ "] " +:+ message.

Definition World : Type := list (@Reply Time).

Definition nextImage (w : World) : (@Image Time + error) * World :=
  match w with
  | GotImage image :: w' => (inl image, w')
  | Failed err :: w' => (inr err, w')
  | Succeeded :: w' => (inr (PlainError "script: an image was expected"), w')
  | [] => (inr (PlainError "script: no reply left"), [])
  end.

Definition nextError (w : World) : option error * World :=
  match w with
  | Succeeded :: w' => (None, w')
  | GotImage _ :: w' => (None, w')
  | Failed err :: w' => (Some err, w')
  | [] => (Some (PlainError "script: no reply left"), [])
  end.

Definition client : @Client Time World :=
  {| GetImage := fun _ => nextImage;
     CreateImage := fun _ => nextImage;
     UpdateImage := fun _ _ => nextImage;
     DeleteImage := fun _ => nextError;
     WaitForInstanceDiskStatus := fun _ _ _ _ => nextError |}.

Definition meta : @Meta Time World := MetaClient client.

(** A private image taken from disk 100 of instance 200. *)
Definition image1 : @Image Time :=
  {| Image_ID := "private/67";
     Image_CreatedBy := "somebody";
     Image_Label := "img";
     Image_Description := "an image";
     Image_Type := "manual";
     Image_Vendor := "";
     Image_Size := 2500;
     Image_IsPublic := false;
     Image_Deprecated := false;
     Image_Created := Some "2018-09-01T10:00:00Z";
     Image_Expiry := None |}.

(** The resource as the framework hands it to Create. *)
Definition fresh : ResourceData :=
  {| Id := "";
     state := ∅;
     planned := {[ "label" := VString "img";
                   "description" := VString "an image";
                   "disk_id" := VInt 100;
                   "linode_id" := VInt 200 ]};
     written := ∅;
     partial := false;
     partialKeys := ∅;
     timeoutSeconds := {[ "create" := 1200 ]} |}.

(** The resource once created and read. *)
Definition stored : ResourceData :=
  {| Id := "private/67";
     state := planned fresh;
     planned := planned fresh;
     written := ∅;
     partial := false;
     partialKeys := ∅;
     timeoutSeconds := timeoutSeconds fresh |}.

(** The stored resource with a new label in the plan. *)
Definition renamed : ResourceData :=
  {| Id := "private/67";
     state := planned fresh;
     planned := <[ "label" := VString "img2" ]> (planned fresh);
     written := ∅;
     partial := false;
     partialKeys := ∅;
     timeoutSeconds := timeoutSeconds fresh |}.

Definition notFound : error := LinodegoError 404 "Not found".
Definition serverError : error := LinodegoError 500 "Internal error".
Definition timedOut : error := PlainError "context deadline exceeded".

End Script.

(** ** The acceptance checks of the SSH key and Volume resources

    The checks read the resources of the root module of a
    [terraform.State] and ask the API about them. *)

(** [terraform.ResourceState], with the ID and the attributes of its primary
    instance. *)
Record ResourceState : Type := {
  ResourceState_Type : string;
  Primary_ID : string;
  Primary_Attributes : gmap string string;
}.

(** [rs.Primary.Attributes[key]]: a missing key reads as the empty string. *)
Definition Attribute (rs : ResourceState) (key : string) : string :=
  default "" (Primary_Attributes rs !! key).

Section Checks.

Context {World SSHKey Volume : Type}.

Variable linodegoErrorString : Z -> string -> string.

(** [strconv.Atoi], of Go's standard library: the integer, or nothing when
    it returns an error. *)
Variable Atoi : string -> option Z.

(** [linodego.Client], restricted to the requests of the checks. *)
Record CheckClient : Type := {
  GetSSHKey : Z -> World -> (SSHKey + error) * World;
  GetVolume : Z -> World -> (Volume + error) * World;
}.

(** What [testAccProvider.Meta()] returns. *)
Inductive ProviderMeta : Type :=
  | ProviderClient (client : CheckClient)
  | ProviderOther.

Inductive CheckCall : Type :=
  | CallGetSSHKey (id : Z)
  | CallGetVolume (id : Z).

(** A request of a check, with the error of its reply, if any. *)
Definition CheckEvent : Type := (CheckCall * option error)%type.

Definition errorOf {A : Type} (r : A + error) : option error :=
  match r with inl _ => None | inr err => Some err end.

(** What a check leaves: the error it returns, the remote world, and the
    requests it has sent, in order. *)
Record Checked : Type := {
  failure : option error;
  after : World;
  requests : list CheckEvent;
}.

Definition finish (r : option error) (w : World) : Checked :=
  {| failure := r; after := w; requests := [] |}.

Definition sent (ev : CheckEvent) (c : Checked) : Checked :=
  {| failure := failure c; after := after c; requests := ev :: requests c |}.

(** *** [testAccCheckLinodeSSHKeyExists]

    [resources] are the values of [s.RootModule().Resources] in the order
    the range statement visits them; Go leaves that order open, so nothing
    is assumed about it. *)

Fixpoint sshKeyExistsLoop (client : CheckClient) (resources : list ResourceState)
    (w : World) : Checked :=
  match resources with
  | [] => finish None w
  | rs :: rest =>
      if negb (String.eqb (ResourceState_Type rs) "linode_sshkey")
      then sshKeyExistsLoop client rest w
      else
        match Atoi (Primary_ID rs) with
        | None =>
            finish (Some (PlainError ("Error parsing " +:+ Primary_ID rs
                                      +:+ " to int"))) w
        | Some id =>
            let (r, w') := GetSSHKey client id w in
            sent (CallGetSSHKey id, errorOf r)
              match r with
              | inr err =>
                  finish (Some (PlainError
                    ("Error retrieving state of SSHKey " +:+ Attribute rs "label"
                     +:+ ": " +:+ ErrorString linodegoErrorString err))) w'
              | inl _ => sshKeyExistsLoop client rest w'
              end
        end
  end.

Definition testAccCheckLinodeSSHKeyExists (meta : ProviderMeta)
    (resources : list ResourceState) (w : World) : Outcome Checked :=
  match meta with
  | ProviderClient client => Return (sshKeyExistsLoop client resources w)
  | ProviderOther =>
      Panic "interface conversion: interface {} is not linodego.Client"
  end.

(** *** [testAccCheckLinodeSSHKeyDestroy] and [testAccCheckLinodeVolumeDestroy]

    The two functions differ in the resource type they look for, the get
    they send and the texts of two errors; [destroyLoop] is their common
    loop. *)

(** The type assertion of [err] to a pointer to [linodego.Error] holds and
    its [Code] is not 404. *)
Definition isOtherAPIError (err : error) : bool :=
  match err with
  | LinodegoError code _ => negb (Z.eqb code 404)
  | PlainError _ => false
  end.

Fixpoint destroyLoop (typeName : string) (call : Z -> CheckCall)
    (get : Z -> World -> option error * World)
    (stillExists requestFailed : Z -> string)
    (resources : list ResourceState) (w : World) : Checked :=
  match resources with
  | [] => finish None w
  | rs :: rest =>
      if negb (String.eqb (ResourceState_Type rs) typeName)
      then destroyLoop typeName call get stillExists requestFailed rest w
      else
        match Atoi (Primary_ID rs) with
        | None =>
            finish (Some (PlainError ("Error parsing " +:+ Primary_ID rs
                                      +:+ " to int"))) w
        | Some id =>
            if Z.eqb id 0 then
              finish (Some (PlainError ("Would have considered " +:+ Primary_ID rs
                                        +:+ " as " +:+ decimal id))) w
            else
              let (r, w') := get id w in
              sent (call id, r)
                match r with
                | None => finish (Some (PlainError (stillExists id))) w'
                | Some err =>
                    if isOtherAPIError err
                    then finish (Some (PlainError (requestFailed id))) w'
                    else destroyLoop typeName call get stillExists
                           requestFailed rest w'
                end
        end
  end.

Definition getSSHKeyError (client : CheckClient) (id : Z) (w : World)
    : option error * World :=
  let (r, w') := GetSSHKey client id w in (errorOf r, w').

Definition getVolumeError (client : CheckClient) (id : Z) (w : World)
    : option error * World :=
  let (r, w') := GetVolume client id w in (errorOf r, w').

Definition testAccCheckLinodeSSHKeyDestroy (meta : ProviderMeta)
    (resources : list ResourceState) (w : World) : Checked :=
  match meta with
  | ProviderOther => finish (Some (PlainError "Error getting Linode client")) w
  | ProviderClient client =>
      destroyLoop "linode_sshkey" CallGetSSHKey (getSSHKeyError client)
        (fun id => "Linode SSH Key with id " +:+ decimal id +:+ " still exists")
        (fun id => "Error requesting Linode SSH Key with id " +:+ decimal id)
        resources w
  end.

Definition testAccCheckLinodeVolumeDestroy (meta : ProviderMeta)
    (resources : list ResourceState) (w : World) : Checked :=
  match meta with
  | ProviderOther => finish (Some (PlainError "Error getting Linode client")) w
  | ProviderClient client =>
      destroyLoop "linode_volume" CallGetVolume (getVolumeError client)
        (fun id => "Linode Volume with id " +:+ decimal id +:+ " still exists")
        (fun id => "Error requesting Linode Volume with id " +:+ decimal id)
        resources w
  end.

(** *** [testAccCheckLinodeVolumeExists]

    [resources] is the map [s.RootModule().Resources]; [volume] is what the
    pointer of the caller holds, and the second component of the result is
    what it holds afterwards. *)

Definition testAccCheckLinodeVolumeExists (name : string) (volume : Volume)
    (meta : ProviderMeta) (resources : gmap string ResourceState) (w : World)
    : Outcome (Checked * Volume) :=
  match meta with
  | ProviderOther =>
      Panic "interface conversion: interface {} is not linodego.Client"
  | ProviderClient client =>
      match resources !! name with
      | None => Return (finish (Some (PlainError ("Not found: " +:+ name))) w, volume)
      | Some rs =>
          if String.eqb (Primary_ID rs) ""
          then Return (finish (Some (PlainError "No ID is set")) w, volume)
          else
            match Atoi (Primary_ID rs) with
            | None =>
                Return (finish (Some (PlainError ("Error parsing " +:+ Primary_ID rs
                                                  +:+ " to int"))) w, volume)
            | Some id =>
                let (r, w') := GetVolume client id w in
                match r with
                | inr err =>
                    Return (sent (CallGetVolume id, Some err)
                              (finish (Some (PlainError
                                 ("Error retrieving state of Volume "
                                  +:+ Attribute rs "label" +:+ ": "
                                  +:+ ErrorString linodegoErrorString err))) w'),
                            volume)
                | inl found =>
                    Return (sent (CallGetVolume id, None) (finish None w'), found)
                end
            end
      end
  end.

End Checks.

(** ** The configurations of the acceptance tests

    [fmt.Sprintf] with [%s] verbs puts its string arguments into the
    template; the templates are raw string literals. *)

Definition quote : string := String "034"%char EmptyString.
Definition tab : string := String "009"%char EmptyString.
Definition newline : string := String "010"%char EmptyString.

Definition quoted (s : string) : string := quote +:+ s +:+ quote.

(** The lines of a raw string literal. *)
Definition lines (l : list string) : string := String.concat newline l.

Definition testAccCheckLinodeSSHKeyConfigBasic (label sshkey : string) : string :=
  lines [ "";
          "resource " +:+ quoted "linode_sshkey" +:+ " " +:+ quoted "foobar" +:+ " {";
          tab +:+ "label = " +:+ quote +:+ label +:+ quote;
          tab +:+ "ssh_key = " +:+ quote +:+ sshkey +:+ quote;
          "}" ].

Definition testAccCheckLinodeSSHKeyConfigUpdates (label sshkey : string) : string :=
  lines [ "";
          "resource " +:+ quoted "linode_sshkey" +:+ " " +:+ quoted "foobar" +:+ " {";
          tab +:+ "label = " +:+ quote +:+ label +:+ "_renamed" +:+ quote;
          tab +:+ "ssh_key = " +:+ quote +:+ sshkey +:+ quote;
          "}" ].

Definition testAccCheckLinodeVolumeConfigBasic (volume : string) : string :=
  lines [ "";
          "resource " +:+ quoted "linode_volume" +:+ " " +:+ quoted "foobar" +:+ " {";
          tab +:+ "label = " +:+ quote +:+ volume +:+ quote;
          tab +:+ "region = " +:+ quoted "us-west";
          "}" ].

Definition testAccCheckLinodeVolumeConfigUpdates (volume : string) : string :=
  lines [ "";
          "resource " +:+ quoted "linode_volume" +:+ " " +:+ quoted "foobar" +:+ " {";
          tab +:+ "label = " +:+ quote +:+ volume +:+ "_r" +:+ quote;
          tab +:+ "region = " +:+ quoted "us-west";
          "}" ].

Definition testAccCheckLinodeVolumeConfigResized (volume : string) : string :=
  lines [ "";
          "resource " +:+ quoted "linode_volume" +:+ " " +:+ quoted "foobar" +:+ " {";
          tab +:+ "label = " +:+ quote +:+ volume +:+ quote;
          tab +:+ "region = " +:+ quoted "us-west";
          tab +:+ "size = 30";
          "}" ].

(** The instance block of the attached configurations: an instance [name]
    that boots with the volume [volume] as its first disk. *)
Definition instanceBlock (name volume : string) : list string :=
  [ "resource " +:+ quoted "linode_instance" +:+ " " +:+ quoted name +:+ " {";
    tab +:+ "type = " +:+ quoted "g6-nanode-1";
    tab +:+ "region = " +:+ quoted "us-west";
    "";
    tab +:+ "config {";
    tab +:+ tab +:+ "label = " +:+ quoted "config";
    tab +:+ tab +:+ "kernel = " +:+ quoted "linode/latest-64bit";
    tab +:+ tab +:+ "devices = {";
    tab +:+ tab +:+ tab +:+ "sda = { volume_id = "
      +:+ quoted ("${linode_volume." +:+ volume +:+ ".id}") +:+ " }, ";
    tab +:+ tab +:+ "}";
    tab +:+ "}";
    "}";
    tab ].

Definition testAccCheckLinodeVolumeConfigAttached (volume : string) : string :=
  lines ([ "" ] ++ instanceBlock "foobar" "foobar"
         ++ [ "resource " +:+ quoted "linode_volume" +:+ " " +:+ quoted "foobar" +:+ " {";
              tab +:+ "label = " +:+ quote +:+ volume +:+ quote;
              tab +:+ "region = " +:+ quoted "us-west";
              "}" ]).

Definition testAccCheckLinodeVolumeConfigReattachedBetweenInstances
    (volume : string) : string :=
  lines ([ "" ] ++ instanceBlock "foobar" "foobaz"
         ++ instanceBlock "foobaz" "foobar"
         ++ [ "resource " +:+ quoted "linode_volume" +:+ " " +:+ quoted "foobar" +:+ " {";
              tab +:+ "label = " +:+ quote +:+ volume +:+ quote;
              tab +:+ "region = " +:+ quoted "us-west";
              "}";
              "";
              "resource " +:+ quoted "linode_volume" +:+ " " +:+ quoted "foobaz" +:+ " {";
              tab +:+ "label = " +:+ quote +:+ volume +:+ "_baz" +:+ quote;
              tab +:+ "region = " +:+ quoted "us-west";
              "}";
              "" ]).

(** ** A remote for the acceptance checks

    A test double: the remote world is the list of the IDs that exist, a
    get returns the ID it was asked for or fails with a 404; a second
    client cannot reach the API at all.  [Atoi] reads a decimal integer
    with an optional minus sign. *)

Module CheckScript.

Definition World : Type := list Z.
Definition SSHKey : Type := Z.
Definition Volume : Type := Z.

Definition Atoi (s : string) : option Z :=
  option_map Z.of_int (NilZero.int_of_string s).

Definition get (id : Z) (w : World) : (Z + error) * World :=
  if bool_decide (id ∈ w) then (inl id, w)
  else (inr (LinodegoError 404 "Not found"), w).

Definition client : @CheckClient World SSHKey Volume :=
  {| GetSSHKey := get; GetVolume := get |}.

Definition unreachable : @CheckClient World SSHKey Volume :=
  {| GetSSHKey := fun _ w => (inr (PlainError "dial tcp: i/o timeout"), w);
     GetVolume := fun _ w => (inr (PlainError "dial tcp: i/o timeout"), w) |}.

Definition key (id : string) : ResourceState :=
  {| ResourceState_Type := "linode_sshkey";
     Primary_ID := id;
     Primary_Attributes := {[ "label" := "tf_test_key" ]} |}.

Definition volume (id : string) : ResourceState :=
  {| ResourceState_Type := "linode_volume";
     Primary_ID := id;
     Primary_Attributes := {[ "label" := "tf_test_volume" ]} |}.

(** A state with a volume and two keys, as a range may visit it, and as the
    map from resource names it is. *)
Definition resources : list ResourceState := [volume "7"; key "12"; key "13"].

Definition named : gmap string ResourceState :=
  {[ "linode_volume.foobar" := volume "7";
     "linode_sshkey.foobar" := key "12";
     "linode_sshkey.foobaz" := key "13" ]}.

End CheckScript.

(** * Properties *)

(** ** The change detector *)

Module VolumeProps.
Import Volume.

(** The test of the repository passes on the model. *)
Lemma test_detectVolumeIDChange_passes :
  TestAccLinodeVolume_detectVolumeIDChange = [].
Proof. reflexivity. Qed.

(** C1. For every pair of optional integers, the change detector answers
    false when both are nil, true when exactly one is nil, and, when both
    are present, true if and only if the two values differ. *)
Theorem detectVolumeIDChange_spec (have want : option Z) :
  match have, want with
  | None, None => detectVolumeIDChange have want = false
  | Some h, Some w => detectVolumeIDChange have want = true <-> h <> w
  | _, _ => detectVolumeIDChange have want = true
  end.
Proof.
  unfold detectVolumeIDChange, optionalIntEqual.
  destruct have as [h|], want as [w|]; try reflexivity.
  rewrite negb_true_iff, Z.eqb_neq. reflexivity.
Qed.

Lemma detectVolumeIDChange_spec_witness :
  detectVolumeIDChange (Some 1) (Some 2) = true.
Proof. apply (detectVolumeIDChange_spec (Some 1) (Some 2)). discriminate. Defined.

End VolumeProps.

(** ** The Image controller *)

Set Warnings "-clear-no-such-hyp".

Section ImageProps.

Context {Time World : Type}.
Variable formatRFC3339 : Time -> string.
Variable linodegoErrorString : Z -> string -> string.

Implicit Types (client : @Client Time World) (d : ResourceData) (w : World).
Implicit Types (err : error) (image : @Image Time).

Abbreviation Exists := (resourceLinodeImageExists linodegoErrorString).
Abbreviation Read := (resourceLinodeImageRead formatRFC3339 linodegoErrorString).
Abbreviation Create := (resourceLinodeImageCreate formatRFC3339 linodegoErrorString).
Abbreviation Update := (resourceLinodeImageUpdate formatRFC3339 linodegoErrorString).
Abbreviation Delete := (resourceLinodeImageDelete linodegoErrorString).

(** Symbolic execution: [exec] unfolds an operation down to the requests it
    sends, [ask] splits on the reply to the next request (or on whether an
    error is a 404), [stamps] on the two optional timestamps. *)
Ltac exec :=
  cbv beta iota zeta delta
    [run mbind mret M_bind M_ret getData modifyData request panic deref
     assertClient pointerOf client_GetImage client_CreateImage
     client_UpdateImage client_DeleteImage client_WaitForInstanceDiskStatus
     resourceLinodeImageExists resourceLinodeImageRead
     resourceLinodeImageCreate resourceLinodeImageUpdate
     resourceLinodeImageDelete createWait data world trace fst snd].

Ltac ask :=
  match goal with
  | |- context [GetImage ?c ?i ?w] =>
      is_var w; destruct (GetImage c i w) as [[?image|?err] ?w] eqn:?Hget
  | |- context [CreateImage ?c ?o ?w] =>
      is_var w; destruct (CreateImage c o w) as [[?image|?err] ?w] eqn:?Hcreate
  | |- context [UpdateImage ?c ?i ?o ?w] =>
      is_var w; destruct (UpdateImage c i o w) as [[?image|?err] ?w] eqn:?Hupdate
  | |- context [DeleteImage ?c ?i ?w] =>
      is_var w; destruct (DeleteImage c i w) as [[?err|] ?w] eqn:?Hdelete
  | |- context [WaitForInstanceDiskStatus ?c ?l ?k ?s ?t ?w] =>
      is_var w;
      destruct (WaitForInstanceDiskStatus c l k s t w) as [[?err|] ?w] eqn:?Hwait
  | |- context [isNotFound ?e] => destruct (isNotFound e) eqn:?Hnf
  end; cbv beta iota delta [negb].

Ltac stamps :=
  try match goal with
      | |- context [Image_Created ?i] =>
          destruct (Image_Created i), (Image_Expiry i); cbn in *
      end.

Lemma isNotFound_iff err :
  isNotFound err = true <-> exists message, err = LinodegoError 404 message.
Proof.
  destruct err as [code message|text]; simpl.
  - rewrite Z.eqb_eq. split.
    + intros ->. eauto.
    + intros [m [= -> _]]. reflexivity.
  - split; [discriminate | intros [m [=]]].
Qed.

Lemma HasChange_iff d key :
  HasChange d key = true <-> state d !! key <> planned d !! key.
Proof. unfold HasChange. apply bool_decide_eq_true. Qed.

(** *** Exists *)

(** C4. Exists sends one get for the ID; it answers (false, nil) exactly
    when the get fails with a linodego error of code 404, (true, nil)
    exactly when the get succeeds, and false with an error exactly when
    the get fails in any other way.  The resource data are not touched. *)
Theorem Exists_spec client d w r w' :
  GetImage client (Id d) w = (r, w') ->
  let res := run (Exists (MetaClient client)) d w in
  (fst res = Return (false, None)
   <-> exists message, r = inr (LinodegoError 404 message))
  /\ (fst res = Return (true, None) <-> exists image, r = inl image)
  /\ ((exists e, fst res = Return (false, Some e))
      <-> exists err, r = inr err /\ forall message, err <> LinodegoError 404 message)
  /\ data (snd res) = d
  /\ trace (snd res) = [(CallGetImage (Id d), replyOfImage r)].
Proof.
  intros Hget. exec. rewrite Hget. cbv beta iota.
  destruct r as [image|err]; [naive_solver|].
  destruct (isNotFound err) eqn:Hnf.
  - apply isNotFound_iff in Hnf as [m ->]. naive_solver.
  - assert (forall m, err <> LinodegoError 404 m) as Hne
      by (intros m ->; simpl in Hnf; discriminate).
    naive_solver.
Qed.

(** *** Read *)

(** Read sends two gets for the ID, its own and the one of Exists. *)
Lemma Read_trace client d w t :
  exists r1 r2,
    trace (snd (Read (MetaClient client) {| data := d; world := w; trace := t |}))
    = (t ++ [(CallGetImage (Id d), r1); (CallGetImage (Id d), r2)])%list.
Proof.
  exec. repeat ask; stamps; rewrite <- app_assoc; simpl; eauto.
Qed.

(** The defect of Read: when its own get fails and the one of Exists
    succeeds, the fields are read through a nil pointer. *)
Lemma Read_panics_after_failed_fetch client d w err w1 image w2 :
  GetImage client (Id d) w = (inr err, w1) ->
  GetImage client (Id d) w1 = (inl image, w2) ->
  fst (run (Read (MetaClient client)) d w)
  = Panic "invalid memory address or nil pointer dereference".
Proof.
  intros H1 H2. exec. rewrite H1. cbv beta iota. rewrite H2. reflexivity.
Qed.

(** C5. When Exists, asked after Read's own get, reports the image absent,
    Read clears the ID, writes no attribute and returns no error. *)
Theorem Read_absent_clears_id client d w :
  let st1 := snd (run (client_GetImage client (Id d)) d w) in
  fst (Exists (MetaClient client) st1) = Return (false, None) ->
  let res := run (Read (MetaClient client)) d w in
  fst res = Return None
  /\ Id (data (snd res)) = ""
  /\ written (data (snd res)) = written d
  /\ data (snd res) = SetId "" d.
Proof.
  exec. repeat ask; intros [=]; auto.
Qed.

(** C9. When Read's get returns the image and Exists reports it present,
    Read returns no error, keeps the ID, writes label, description, type,
    size, vendor, created_by, deprecated and is_public from the image, and
    writes created (expiry) exactly when the image has that timestamp,
    formatted by RFC 3339; no other attribute is written. *)
Theorem Read_maps_remote_fields client d w image :
  fst (run (client_GetImage client (Id d)) d w) = Return (inl image) ->
  let st1 := snd (run (client_GetImage client (Id d)) d w) in
  fst (Exists (MetaClient client) st1) = Return (true, None) ->
  let res := run (Read (MetaClient client)) d w in
  let d' := data (snd res) in
  fst res = Return None
  /\ Id d' = Id d
  /\ written d' !! "label" = Some (VString (Image_Label image))
  /\ written d' !! "description" = Some (VString (Image_Description image))
  /\ written d' !! "type" = Some (VString (Image_Type image))
  /\ written d' !! "size" = Some (VInt (Image_Size image))
  /\ written d' !! "vendor" = Some (VString (Image_Vendor image))
  /\ written d' !! "created_by" = Some (VString (Image_CreatedBy image))
  /\ written d' !! "deprecated" = Some (VBool (Image_Deprecated image))
  /\ written d' !! "is_public" = Some (VBool (Image_IsPublic image))
  /\ written d' !! "created"
     = match Image_Created image with
       | Some t => Some (VString (formatRFC3339 t))
       | None => written d !! "created"
       end
  /\ written d' !! "expiry"
     = match Image_Expiry image with
       | Some t => Some (VString (formatRFC3339 t))
       | None => written d !! "expiry"
       end
  /\ forall key, ~ In key imageKeys -> written d' !! key = written d !! key.
Proof.
  exec. repeat ask; intros [= ->]; intros [=].
  all: destruct (Image_Created image), (Image_Expiry image); cbn.
  all: repeat split; try (intros key Hkey; cbn in Hkey); simplify_map_eq; try done.
  all: repeat (rewrite lookup_insert_ne; [|intros <-; tauto]); reflexivity.
Qed.

(** *** Delete *)

(** C2, as the code has it. Delete sends one delete request; when the
    request succeeds Delete clears the ID and returns no error; when the
    request fails with any error, a 404 included, Delete returns an error
    that quotes it and keeps the ID. *)
Theorem Delete_spec client d w r w' :
  DeleteImage client (Id d) w = (r, w') ->
  let res := run (Delete (MetaClient client)) d w in
  trace (snd res) = [(CallDeleteImage (Id d), replyOfError r)]
  /\ match r with
     | None => fst res = Return None /\ data (snd res) = SetId "" d
     | Some err =>
         fst res = Return (Some (PlainError
                     ("Error deleting Linode Image " +:+ Id d +:+ ": "
                      +:+ ErrorString linodegoErrorString err)))
         /\ data (snd res) = d
     end.
Proof.
  intros Hdel. exec. rewrite Hdel. destruct r as [err|]; auto.
Qed.

(** *** Create *)

(** C3, as the code has it. When Create returns an error and no create
    request has succeeded, the ID, the attributes and the partial keys are
    as Create found them; when it returns an error after a create request
    succeeded, the ID of the created image is kept. *)
Theorem Create_error_state (meta : @Meta Time World) d w err :
  let res := run (Create meta) d w in
  fst res = Return (Some err) ->
  ((forall opts image,
       ~ In (CallCreateImage opts, GotImage image) (trace (snd res))) ->
     Id (data (snd res)) = Id d
     /\ state (data (snd res)) = state d
     /\ planned (data (snd res)) = planned d
     /\ written (data (snd res)) = written d
     /\ partialKeys (data (snd res)) = partialKeys d)
  /\ (forall opts image,
        In (CallCreateImage opts, GotImage image) (trace (snd res)) ->
        Id (data (snd res)) = Image_ID image).
Proof.
  destruct meta as [client|]; exec; [|intros _; split; [auto | intros ? ? []]].
  repeat ask; try discriminate; intros Herr.
  all: try (destruct (Image_Created _), (Image_Expiry _); discriminate).
  all: cbn; split;
    [ intros Hno; try (exfalso; eapply Hno; eauto; fail); auto
    | intros opts image' Hin; naive_solver ].
Qed.

(** C6. When the create request of Create has succeeded, the next request
    is the second wait for the disk; unless that wait succeeds and the get
    Exists then sends for the new ID returns the image, Create returns an
    error; so Create returns success only after that get found the image. *)
Theorem Create_confirms_presence client d w opts image :
  let res := run (Create (MetaClient client)) d w in
  In (CallCreateImage opts, GotImage image) (trace (snd res)) ->
  exists r rest,
    trace (snd res)
    = (createWait d, Succeeded) :: (CallCreateImage opts, GotImage image)
        :: (createWait d, r) :: rest
    /\ ((forall confirmed rest',
           ~ (r = Succeeded
              /\ rest = (CallGetImage (Image_ID image), GotImage confirmed) :: rest'))
        -> exists err, fst res = Return (Some err))
    /\ (fst res = Return None ->
        exists confirmed rest',
          r = Succeeded
          /\ rest = (CallGetImage (Image_ID image), GotImage confirmed) :: rest').
Proof.
  exec. repeat ask; cbn; intros Hin; stamps.
  all: destruct_or?; simplify_eq.
  all: do 2 eexists; split; [reflexivity|].
  all: split; [ intros Hun; try (exfalso; eapply Hun; eauto; fail); eauto
              | intros Hok; try discriminate; eauto ].
Qed.

(** C7. The first request of Create is the wait for the disk of the
    instance to become ready, bounded by the create timeout; when that wait
    fails, Create sends nothing else, returns an error whose text gives the
    instance and the disk, and stores no ID; a create request is only ever
    sent after the wait has succeeded. *)
Theorem Create_waits_for_disk client d w r w1 :
  WaitForInstanceDiskStatus client (GetInt d "linode_id") (GetInt d "disk_id")
    DiskReady (Timeout d "create") w = (r, w1) ->
  let res := run (Create (MetaClient client)) d w in
  exists rest,
    trace (snd res) = (createWait d, replyOfError r) :: rest
    /\ (forall err, r = Some err ->
          rest = []
          /\ fst res = Return (Some (PlainError
                 ("Error waiting for Linode Instance "
                  +:+ decimal (GetInt d "linode_id")
                  +:+ " Disk " +:+ decimal (GetInt d "disk_id")
                  +:+ " to become ready for taking an Image")))
          /\ Id (data (snd res)) = Id d)
    /\ (forall opts reply, In (CallCreateImage opts, reply) rest -> r = None).
Proof.
  intros Hwait. exec.
  change (GetInt (Partial true d)) with (GetInt d).
  change (Timeout (Partial true d)) with (Timeout d).
  rewrite Hwait. cbv beta iota.
  destruct r as [err|]; cbv beta iota.
  - eexists; split; [reflexivity|]. split; [auto | intros ? ? []].
  - repeat ask; cbn; stamps.
    all: eexists; split; [reflexivity|]; split; [intros ? [=] | auto].
Qed.

(** *** Update *)

(** C8, as the code has it. When the first get of Update succeeds, Update
    sends exactly one update request, whatever has changed; its options
    hold the planned label if the label changed and the empty string
    otherwise, the planned description if the description changed and nil
    otherwise. *)
Theorem Update_request client d w image w1 :
  GetImage client (Id d) w = (inl image, w1) ->
  let res := run (Update (MetaClient client)) d w in
  exists opts reply rest,
    trace (snd res)
    = (CallGetImage (Id d), GotImage image)
        :: (CallUpdateImage (Id d) opts, reply) :: rest
    /\ (forall id' opts' reply', ~ In (CallUpdateImage id' opts', reply') rest)
    /\ (state d !! "label" = planned d !! "label" -> UpdateOptions_Label opts = "")
    /\ (state d !! "label" <> planned d !! "label" ->
        UpdateOptions_Label opts = GetString d "label")
    /\ (state d !! "description" = planned d !! "description" ->
        UpdateOptions_Description opts = None)
    /\ (state d !! "description" <> planned d !! "description" ->
        UpdateOptions_Description opts = Some (GetString d "description")).
Proof.
  intros Hget. exec. rewrite Hget. cbv beta iota.
  repeat ask; cbn; stamps.
  all: do 3 eexists; split; [reflexivity|]; cbn.
  all: unfold HasChange; repeat case_bool_decide; naive_solver.
Qed.

End ImageProps.

(** ** The properties at work on the scripted client *)

Section Scripted.

Import Script.

Abbreviation Exists := (@resourceLinodeImageExists Time linodegoErrorString World).
Abbreviation Read :=
  (@resourceLinodeImageRead Time formatRFC3339 linodegoErrorString World).
Abbreviation Create :=
  (@resourceLinodeImageCreate Time formatRFC3339 linodegoErrorString World).
Abbreviation Update :=
  (@resourceLinodeImageUpdate Time formatRFC3339 linodegoErrorString World).
Abbreviation Delete := (@resourceLinodeImageDelete Time linodegoErrorString World).

Example decimal_200 : decimal 200 = "200".
Proof. reflexivity. Qed.

(** Exists on an ID that was just deleted: false, and no error. *)
Lemma Exists_spec_witness :
  fst (run (Exists meta) stored [Failed notFound]) = Return (false, None).
Proof.
  apply (Exists_spec linodegoErrorString client stored [Failed notFound] _ _ eq_refl).
  exists "Not found". reflexivity.
Defined.

(** Read of an image that vanished between the two gets. *)
Lemma Read_absent_clears_id_witness :
  let res := run (Read meta) stored [GotImage image1; Failed notFound] in
  fst res = Return None /\ Id (data (snd res)) = "".
Proof.
  destruct (Read_absent_clears_id formatRFC3339 linodegoErrorString client stored
              [GotImage image1; Failed notFound] eq_refl) as (Hout & Hid & _).
  split; [exact Hout | exact Hid].
Defined.

(** Read of an image that is there: it has a creation time and no expiry. *)
Lemma Read_maps_remote_fields_witness :
  let res := run (Read meta) stored [GotImage image1; GotImage image1] in
  written (data (snd res)) !! "label" = Some (VString "img")
  /\ written (data (snd res)) !! "created" = Some (VString "2018-09-01T10:00:00Z")
  /\ written (data (snd res)) !! "expiry" = None.
Proof.
  destruct (Read_maps_remote_fields formatRFC3339 linodegoErrorString client stored
              [GotImage image1; GotImage image1] image1 eq_refl eq_refl)
    as (_ & _ & Hlabel & _ & _ & _ & _ & _ & _ & _ & Hcreated & Hexpiry & _).
  split; [exact Hlabel | split; [exact Hcreated | exact Hexpiry]].
Defined.

(** C10. Read's own get fails with a 500 and the get of Exists finds the
    image: Read reaches the attribute mapping with a nil image and panics. *)
Theorem Read_nil_dereference :
  fst (run (Read meta) stored [Failed serverError; GotImage image1])
  = Panic "invalid memory address or nil pointer dereference".
Proof.
  exact (Read_panics_after_failed_fetch formatRFC3339 linodegoErrorString client
           stored [Failed serverError; GotImage image1] serverError
           [GotImage image1] image1 [] eq_refl eq_refl).
Qed.

(** Delete of an image that is there. *)
Lemma Delete_spec_witness :
  let res := run (Delete meta) stored [Succeeded] in
  fst res = Return None /\ Id (data (snd res)) = "".
Proof.
  destruct (Delete_spec linodegoErrorString client stored [Succeeded] None []
              eq_refl) as (_ & Hout & Hdata).
  split; [exact Hout | exact (f_equal Id Hdata)].
Defined.

(** C2 fails as stated: the API answers the delete request with a 404 and
    Delete returns an error, the ID kept. *)
Lemma Delete_not_found_is_an_error :
  let res := run (Delete meta) stored [Failed notFound] in
  DeleteImage client (Id stored) [Failed notFound] = (Some (LinodegoError 404 "Not found"), [])
  /\ fst res = Return (Some (PlainError
                 "Error deleting Linode Image private/67: [404] Not found"))
  /\ fst res <> Return None
  /\ Id (data (snd res)) = "private/67".
Proof. repeat split. discriminate. Qed.

(** An error of Create after the image was created: the second wait fails. *)
Lemma Create_error_state_witness :
  Id (data (snd (run (Create meta) fresh
                   [Succeeded; GotImage image1; Failed timedOut])))
  = Image_ID image1.
Proof.
  refine (proj2 (Create_error_state formatRFC3339 linodegoErrorString meta fresh
                   [Succeeded; GotImage image1; Failed timedOut]
                   (PlainError "Error waiting for Linode Instance 200 Disk 100 to become ready while taking an Image")
                   eq_refl)
            {| CreateOptions_DiskID := 100; CreateOptions_Label := "img";
               CreateOptions_Description := "an image" |} image1 _).
  vm_compute. right. left. reflexivity.
Defined.

(** C3 fails as stated: Create starts without an ID, returns an error, and
    leaves the ID of the created image and two partial keys behind. *)
Lemma Create_error_retains_id :
  let res := run (Create meta) fresh [Succeeded; GotImage image1; Failed timedOut] in
  Id fresh = ""
  /\ fst res = Return (Some (PlainError
       "Error waiting for Linode Instance 200 Disk 100 to become ready while taking an Image"))
  /\ Id (data (snd res)) = "private/67"
  /\ Id (data (snd res)) <> ""
  /\ partialKeys (data (snd res)) = {[ "label"; "description" ]}.
Proof.
  repeat split. discriminate.
Qed.

(** Create whose image is gone when Exists looks for it. *)
Lemma Create_confirms_presence_witness :
  let script := [Succeeded; GotImage image1; Succeeded; Failed notFound] in
  exists err, fst (run (Create meta) fresh script) = Return (Some err).
Proof.
  intros script.
  destruct (Create_confirms_presence formatRFC3339 linodegoErrorString client
              fresh script
              {| CreateOptions_DiskID := 100; CreateOptions_Label := "img";
                 CreateOptions_Description := "an image" |} image1)
    as (r & rest & Htrace & Hunconfirmed & _).
  - vm_compute. right. left. reflexivity.
  - apply Hunconfirmed. intros confirmed rest' [-> ->]. discriminate Htrace.
Defined.

(** Create on a disk that does not become ready in time: the scenario of
    disk 100 on instance 200. *)
Lemma Create_waits_for_disk_witness :
  let res := run (Create meta) fresh [Failed timedOut] in
  fst res = Return (Some (PlainError
    "Error waiting for Linode Instance 200 Disk 100 to become ready for taking an Image"))
  /\ trace (snd res)
     = [(CallWaitForInstanceDiskStatus 200 100 DiskReady 1200, Failed timedOut)].
Proof.
  destruct (Create_waits_for_disk formatRFC3339 linodegoErrorString client fresh
              [Failed timedOut] (Some timedOut) [] eq_refl)
    as (rest & Htrace & Hfail & _).
  destruct (Hfail timedOut eq_refl) as (-> & Hout & _).
  split; [exact Hout | exact Htrace].
Defined.

(** Update of the label alone. *)
Lemma Update_request_witness :
  let script := [GotImage image1; GotImage image1; GotImage image1; GotImage image1] in
  exists opts reply rest,
    trace (snd (run (Update meta) renamed script))
    = (CallGetImage "private/67", GotImage image1)
        :: (CallUpdateImage "private/67" opts, reply) :: rest
    /\ UpdateOptions_Label opts = "img2"
    /\ UpdateOptions_Description opts = None.
Proof.
  intros script.
  destruct (Update_request formatRFC3339 linodegoErrorString client renamed script
              image1 _ eq_refl)
    as (opts & reply & rest & Htrace & _ & _ & Hlabel & Hdescription & _).
  exists opts, reply, rest.
  split; [exact Htrace|].
  split; [apply Hlabel; vm_compute; discriminate | apply Hdescription; reflexivity].
Defined.

(** C8 fails as stated: nothing has changed, and Update still sends an
    update request, one that carries no field. *)
Lemma Update_unchanged_still_requests :
  let script := [GotImage image1; GotImage image1; GotImage image1; GotImage image1] in
  HasChange stored "label" = false
  /\ HasChange stored "description" = false
  /\ In (CallUpdateImage "private/67"
           {| UpdateOptions_Label := ""; UpdateOptions_Description := None |},
         GotImage image1)
        (trace (snd (run (Update meta) stored script))).
Proof.
  intros script. split; [vm_compute; reflexivity|].
  split; [vm_compute; reflexivity|].
  vm_compute. right. left. reflexivity.
Qed.

End Scripted.

(** * Further properties *)

(** ** The Image controller, continued *)

Section ImageMore.

Context {Time World : Type}.
Variable formatRFC3339 : Time -> string.
Variable linodegoErrorString : Z -> string -> string.

Implicit Types (client : @Client Time World) (d : ResourceData) (w : World).
Implicit Types (err : error) (image : @Image Time).

Abbreviation Exists := (resourceLinodeImageExists linodegoErrorString).
Abbreviation Read := (resourceLinodeImageRead formatRFC3339 linodegoErrorString).
Abbreviation Create := (resourceLinodeImageCreate formatRFC3339 linodegoErrorString).
Abbreviation Update := (resourceLinodeImageUpdate formatRFC3339 linodegoErrorString).
Abbreviation Delete := (resourceLinodeImageDelete linodegoErrorString).

(** [unfold_op] brings an operation down to its requests; [reply] splits on
    the next answer of the client; [timestamps] on the optional timestamps
    of a mapped image. *)
Ltac unfold_op :=
  cbv beta iota zeta delta
    [run mbind mret M_bind M_ret getData modifyData request panic deref
     assertClient pointerOf client_GetImage client_CreateImage
     client_UpdateImage client_DeleteImage client_WaitForInstanceDiskStatus
     resourceLinodeImageExists resourceLinodeImageRead
     resourceLinodeImageCreate resourceLinodeImageUpdate
     resourceLinodeImageDelete createWait data world trace fst snd].

Ltac reply :=
  match goal with
  | |- context [GetImage ?c ?i ?w] =>
      is_var w; destruct (GetImage c i w) as [[?image|?err] ?w] eqn:?Hget
  | |- context [CreateImage ?c ?o ?w] =>
      is_var w; destruct (CreateImage c o w) as [[?image|?err] ?w] eqn:?Hcreate
  | |- context [UpdateImage ?c ?i ?o ?w] =>
      is_var w; destruct (UpdateImage c i o w) as [[?image|?err] ?w] eqn:?Hupdate
  | |- context [DeleteImage ?c ?i ?w] =>
      is_var w; destruct (DeleteImage c i w) as [[?err|] ?w] eqn:?Hdelete
  | |- context [WaitForInstanceDiskStatus ?c ?l ?k ?s ?t ?w] =>
      is_var w;
      destruct (WaitForInstanceDiskStatus c l k s t w) as [[?err|] ?w] eqn:?Hwait
  | |- context [isNotFound ?e] => destruct (isNotFound e) eqn:?Hnf
  end; cbv beta iota delta [negb].

Ltac timestamps :=
  try match goal with
      | |- context [Image_Created ?i] =>
          destruct (Image_Created i), (Image_Expiry i); cbv beta iota
      end.

(** [flatten_data] reads the configuration through the updates of the
    resource data that do not touch it. *)
Ltac flatten_data :=
  cbv beta iota delta
    [Timeout GetInt GetString Get Partial SetId SetPartial d_Set Id state
     planned written partial partialKeys timeoutSeconds] in *.

(** *** Read *)

(** X1. Read only reads: whatever the client answers, it sends exactly two
    requests, both gets of the resource's ID. *)
Theorem Read_sends_two_gets client d w :
  exists r1 r2,
    trace (snd (run (Read (MetaClient client)) d w))
    = [(CallGetImage (Id d), r1); (CallGetImage (Id d), r2)].
Proof.
  unfold_op. repeat reply; timestamps; simpl; eauto.
Qed.

(** X2. Read panics exactly when its own get fails and the get of Exists
    that follows succeeds. *)
Theorem Read_panics_iff client d w r1 w1 r2 w2 :
  GetImage client (Id d) w = (r1, w1) ->
  GetImage client (Id d) w1 = (r2, w2) ->
  (exists reason, fst (run (Read (MetaClient client)) d w) = Panic reason)
  <-> (exists err image, r1 = inr err /\ r2 = inl image).
Proof.
  intros H1 H2. unfold_op. rewrite H1. cbv beta iota. rewrite H2. cbv beta iota.
  destruct r2 as [i2|e2]; cbv beta iota.
  - destruct r1 as [i1|e1]; cbv beta iota delta [negb]; timestamps; naive_solver.
  - destruct (isNotFound e2); cbv beta iota delta [negb]; naive_solver.
Qed.

(** X3. When the get of Exists fails with anything but a 404, Read returns
    an error that quotes the error of Exists, which quotes the ID and the
    client's error; the resource data are left as they were. *)
Theorem Read_error_wraps client d w r1 w1 err w2 :
  GetImage client (Id d) w = (r1, w1) ->
  GetImage client (Id d) w1 = (inr err, w2) ->
  isNotFound err = false ->
  let res := run (Read (MetaClient client)) d w in
  fst res = Return (Some (PlainError
              ("Error finding the specified Linode Image: "
               +:+ "Error getting Linode Image ID " +:+ Id d +:+ ": "
               +:+ ErrorString linodegoErrorString err)))
  /\ data (snd res) = d.
Proof.
  intros H1 H2 Hnf. unfold_op. rewrite H1. cbv beta iota. rewrite H2.
  cbv beta iota. rewrite Hnf. auto.
Qed.

(** X4. Read returns an error only in that case: an error of Read means the
    get of Exists failed with something other than a 404, and then nothing
    was written and the ID was kept. *)
Theorem Read_error_only_from_exists client d w e :
  let res := run (Read (MetaClient client)) d w in
  fst res = Return (Some e) ->
  data (snd res) = d
  /\ exists r1 err,
       trace (snd res)
       = [(CallGetImage (Id d), r1); (CallGetImage (Id d), Failed err)]
       /\ isNotFound err = false.
Proof.
  unfold_op. repeat reply; timestamps; intros [=]; eauto.
Qed.

(** X5. Read is idempotent on a remote that stands still: a second Read that
    is given the same image as the first leaves the resource data as the
    first Read left them. *)
Theorem Read_idempotent client d w image w1 i2 w2 w3 i4 w4 :
  GetImage client (Id d) w = (inl image, w1) ->
  GetImage client (Id d) w1 = (inl i2, w2) ->
  GetImage client (Id d) w2 = (inl image, w3) ->
  GetImage client (Id d) w3 = (inl i4, w4) ->
  let once := run (Read (MetaClient client)) d w in
  let twice := Read (MetaClient client) (snd once) in
  fst once = Return None
  /\ fst twice = Return None
  /\ data (snd twice) = data (snd once).
Proof.
  intros H1 H2 H3 H4. unfold_op.
  rewrite H1. cbv beta iota. rewrite H2. cbv beta iota delta [negb].
  destruct (Image_Created image) as [c|] eqn:Hc, (Image_Expiry image) as [e|] eqn:He;
    cbn [Id d_Set]; rewrite H3; cbv beta iota; cbn [Id d_Set]; rewrite H4;
    cbv beta iota delta [negb]; rewrite ?Hc, ?He; cbv beta iota.
  all: split; [reflexivity|]; split; [reflexivity|].
  all: cbv beta iota delta
         [d_Set Id state planned written partial partialKeys timeoutSeconds].
  all: f_equal.
  all: repeat (rewrite insert_id; [|by simplify_map_eq]).
  all: reflexivity.
Qed.

(** *** The ID *)

(** X6. Only Create stores an ID: Exists keeps the ID, and after Read, Update
    or Delete the ID is the one the operation found or the empty string. *)
Theorem Id_kept_or_cleared client d w :
  Id (data (snd (run (Exists (MetaClient client)) d w))) = Id d
  /\ (let d' := data (snd (run (Read (MetaClient client)) d w)) in
      Id d' = Id d \/ Id d' = "")
  /\ (let d' := data (snd (run (Update (MetaClient client)) d w)) in
      Id d' = Id d \/ Id d' = "")
  /\ (let d' := data (snd (run (Delete (MetaClient client)) d w)) in
      Id d' = Id d \/ Id d' = "").
Proof.
  repeat split; unfold_op; repeat reply; timestamps; auto.
Qed.

(** X7. A meta that is no client: Create returns an error, the other four
    operations panic on the type assertion; none of them sends a request or
    touches the resource data. *)
Theorem not_a_client d w :
  let st := {| data := d; world := w; trace := [] |} in
  run (Create MetaOther) d w
  = (Return (Some (PlainError "Invalid Client when creating Linode Image")), st)
  /\ (exists reason, run (Exists MetaOther) d w = (Panic reason, st))
  /\ (exists reason, run (Read MetaOther) d w = (Panic reason, st))
  /\ (exists reason, run (Update MetaOther) d w = (Panic reason, st))
  /\ (exists reason, run (Delete MetaOther) d w = (Panic reason, st)).
Proof.
  repeat split; eexists; reflexivity.
Qed.

(** *** Create *)

(** X8. What Create sends: the waits for the configured disk, at most one
    create request, which is the second request and carries the configured
    disk, label and description, and gets; never an update or a delete. *)
Theorem Create_requests client d w i call reply :
  trace (snd (run (Create (MetaClient client)) d w)) !! i = Some (call, reply) ->
  match call with
  | CallWaitForInstanceDiskStatus _ _ _ _ =>
      call = createWait d /\ (i = 0%nat \/ i = 2%nat)
  | CallCreateImage opts =>
      i = 1%nat
      /\ opts = {| CreateOptions_DiskID := GetInt d "disk_id";
                   CreateOptions_Label := GetString d "label";
                   CreateOptions_Description := GetString d "description" |}
  | CallGetImage _ => (3 <= i)%nat
  | CallUpdateImage _ _ | CallDeleteImage _ => False
  end.
Proof.
  unfold_op. repeat reply; timestamps.
  all: flatten_data; cbn [app].
  all: do 6 (destruct i as [|i];
             [cbn [lookup list_lookup]; intros [= <- <-];
              first [ split; [reflexivity | auto] | repeat constructor ] |]).
  all: cbn [lookup list_lookup]; intros [=].
Qed.

(** X9. A Create that returns success has sent six requests: the wait, the
    create request, the wait again, and three gets of the new ID, of which
    the first found the image.  If the third found it too, so did the
    second, the ID is the new one, partial mode is off and the label written
    is the one of the second get; if the third answered 404, the ID is empty
    again and nothing was written. *)
Theorem Create_success client d w :
  let res := run (Create (MetaClient client)) d w in
  fst res = Return None ->
  exists opts image confirmed own last,
    trace (snd res)
    = [(createWait d, Succeeded);
       (CallCreateImage opts, GotImage image);
       (createWait d, Succeeded);
       (CallGetImage (Image_ID image), GotImage confirmed);
       (CallGetImage (Image_ID image), own);
       (CallGetImage (Image_ID image), last)]
    /\ partial (data (snd res)) = false
    /\ match last with
       | GotImage _ =>
           Id (data (snd res)) = Image_ID image
           /\ exists mapped,
                own = GotImage mapped
                /\ written (data (snd res)) !! "label"
                   = Some (VString (Image_Label mapped))
       | Failed err =>
           isNotFound err = true
           /\ Id (data (snd res)) = ""
           /\ written (data (snd res)) = written d
       | Succeeded => False
       end.
Proof.
  unfold_op. repeat reply; try discriminate.
  all: try (destruct (Image_Created _), (Image_Expiry _); discriminate).
  all: timestamps; intros _; flatten_data; cbn [app].
  all: do 5 eexists; split; [reflexivity|]; split; [reflexivity|].
  all: cbv beta iota delta [replyOfImage].
  all: repeat split; try reflexivity; try assumption.
  all: eexists; split; [reflexivity|]; by simplify_map_eq.
Qed.


(** X11. When the create request fails, Create returns an error that quotes
    the client's, and stops: no second wait and no get are sent. *)
Theorem Create_request_failure client d w w1 opts err w2 :
  WaitForInstanceDiskStatus client (GetInt d "linode_id") (GetInt d "disk_id")
    DiskReady (Timeout d "create") w = (None, w1) ->
  opts = {| CreateOptions_DiskID := GetInt d "disk_id";
            CreateOptions_Label := GetString d "label";
            CreateOptions_Description := GetString d "description" |} ->
  CreateImage client opts w1 = (inr err, w2) ->
  let res := run (Create (MetaClient client)) d w in
  fst res = Return (Some (PlainError
              ("Error creating a Linode Image: "
               +:+ ErrorString linodegoErrorString err)))
  /\ trace (snd res)
     = [(createWait d, Succeeded); (CallCreateImage opts, Failed err)]
  /\ world (snd res) = w2.
Proof.
  intros Hwait -> Hcreate. unfold_op.
  change (GetInt (Partial true d)) with (GetInt d).
  change (GetString (Partial true d)) with (GetString d).
  change (Timeout (Partial true d)) with (Timeout d).
  rewrite Hwait. cbv beta iota. rewrite Hcreate. auto.
Qed.

(** *** Update *)

(** X12. When the first get of Update fails, Update returns an error that
    quotes the client's, sends no update request and leaves the resource
    data alone. *)
Theorem Update_fetch_failure client d w err w1 :
  GetImage client (Id d) w = (inr err, w1) ->
  run (Update (MetaClient client)) d w
  = (Return (Some (PlainError
               ("Error fetching data about the current Image: "
                +:+ ErrorString linodegoErrorString err))),
     {| data := d; world := w1;
        trace := [(CallGetImage (Id d), Failed err)] |}).
Proof.
  intros Hget. unfold_op. rewrite Hget. reflexivity.
Qed.

(** X13. When the update request fails, Update hands the client's error back
    as it is, without a text of its own, after two requests and with the
    resource data untouched. *)
Theorem Update_request_failure client d w id opts err :
  let res := run (Update (MetaClient client)) d w in
  In (CallUpdateImage id opts, Failed err) (trace (snd res)) ->
  fst res = Return (Some err)
  /\ data (snd res) = d
  /\ exists image,
       trace (snd res)
       = [(CallGetImage (Id d), GotImage image);
          (CallUpdateImage (Id d) opts, Failed err)].
Proof.
  unfold_op. repeat reply; timestamps; cbn [app In replyOfImage].
  all: intros Hin; destruct_or?; simplify_eq.
  repeat split; eauto.
Qed.

(** X14. After a successful update request Update writes the label and the
    description of the reply and ends with Read, four requests in all.  If
    Read maps an image, its label and description replace those of the
    reply; if Read finds the image gone, returns an error or panics, those
    of the reply stay written. *)
Theorem Update_after_request client d w id opts updated :
  let res := run (Update (MetaClient client)) d w in
  In (CallUpdateImage id opts, GotImage updated) (trace (snd res)) ->
  let replied :=
    d_Set "description" (VString (Image_Description updated))
      (d_Set "label" (VString (Image_Label updated)) d) in
  exists first own last,
    trace (snd res)
    = [(CallGetImage (Id d), GotImage first);
       (CallUpdateImage (Id d) opts, GotImage updated);
       (CallGetImage (Id d), own);
       (CallGetImage (Id d), last)]
    /\ match fst res with
       | Return None =>
           data (snd res) = SetId "" replied
           \/ exists mapped,
                own = GotImage mapped
                /\ Id (data (snd res)) = Id d
                /\ written (data (snd res)) !! "label"
                   = Some (VString (Image_Label mapped))
                /\ written (data (snd res)) !! "description"
                   = Some (VString (Image_Description mapped))
       | Return (Some _) | Panic _ => data (snd res) = replied
       end.
Proof.
  unfold_op. repeat reply; timestamps; cbn [app In replyOfImage].
  all: intros Hin; destruct_or?; simplify_eq.
  all: do 3 eexists; split; [reflexivity|].
  all: try reflexivity.
  all: try (left; reflexivity).
  all: right; eexists; split; [reflexivity|].
  all: flatten_data; repeat split; by simplify_map_eq.
Qed.
End ImageMore.

(** ** The acceptance checks *)

Section ChecksProps.

Context {World SSHKey Volume : Type}.
Variable linodegoErrorString : Z -> string -> string.
Variable Atoi : string -> option Z.

Implicit Types (client : @CheckClient World SSHKey Volume) (w : World).
Implicit Types (meta : @ProviderMeta World SSHKey Volume).
Implicit Types (rs : ResourceState) (resources : list ResourceState).

Abbreviation KeyExists := (testAccCheckLinodeSSHKeyExists linodegoErrorString Atoi).
Abbreviation KeyDestroy := (testAccCheckLinodeSSHKeyDestroy (Volume := Volume) Atoi).
Abbreviation VolumeDestroy := (testAccCheckLinodeVolumeDestroy (SSHKey := SSHKey) Atoi).
Abbreviation VolumeExists := (testAccCheckLinodeVolumeExists linodegoErrorString Atoi).

(** The resources of one type, in the order of the state. *)
Abbreviation ofType typeName resources :=
  (filter (fun rs => ResourceState_Type rs = typeName) resources).

Lemma ofType_cons typeName rs resources :
  ofType typeName (rs :: resources)
  = if String.eqb (ResourceState_Type rs) typeName
    then rs :: ofType typeName resources
    else ofType typeName resources.
Proof.
  destruct (String.eqb_spec (ResourceState_Type rs) typeName) as [Heq|Hne].
  - by rewrite filter_cons_True.
  - by rewrite filter_cons_False.
Qed.

(** *** The loops look at their own type only *)

Lemma sshKeyExistsLoop_ofType client resources w :
  sshKeyExistsLoop linodegoErrorString Atoi client resources w
  = sshKeyExistsLoop linodegoErrorString Atoi client
      (ofType "linode_sshkey" resources) w.
Proof.
  revert w. induction resources as [|rs rest IH]; intros w; [reflexivity|].
  rewrite ofType_cons. cbn [sshKeyExistsLoop].
  destruct (String.eqb (ResourceState_Type rs) "linode_sshkey") eqn:Htype;
    cbn [negb]; [|apply IH].
  cbn [sshKeyExistsLoop]. rewrite Htype. cbn [negb].
  destruct (Atoi (Primary_ID rs)) as [id|]; [|reflexivity].
  destruct (GetSSHKey client id w) as [[key|err] w']; [|reflexivity].
  by rewrite IH.
Qed.

Lemma destroyLoop_ofType typeName call get stillExists requestFailed resources w :
  destroyLoop Atoi typeName call get stillExists requestFailed resources w
  = destroyLoop Atoi typeName call get stillExists requestFailed
      (ofType typeName resources) w.
Proof.
  revert w. induction resources as [|rs rest IH]; intros w; [reflexivity|].
  rewrite ofType_cons. cbn [destroyLoop].
  destruct (String.eqb (ResourceState_Type rs) typeName) eqn:Htype;
    cbn [negb]; [|apply IH].
  cbn [destroyLoop]. rewrite Htype. cbn [negb].
  destruct (Atoi (Primary_ID rs)) as [id|]; [|reflexivity].
  destruct (Z.eqb id 0); [reflexivity|].
  destruct (get id w) as [[err|] w']; [|reflexivity].
  destruct (isOtherAPIError err); [reflexivity|].
  by rewrite IH.
Qed.

(** X15. The three loops over the state look at the resources of their own
    type only: with all other resources dropped from the state, each check
    returns the same error, sends the same requests and leaves the same
    world. *)
Theorem checks_ignore_other_types meta resources w :
  KeyExists meta resources w
  = KeyExists meta (ofType "linode_sshkey" resources) w
  /\ KeyDestroy meta resources w
     = KeyDestroy meta (ofType "linode_sshkey" resources) w
  /\ VolumeDestroy meta resources w
     = VolumeDestroy meta (ofType "linode_volume" resources) w.
Proof.
  destruct meta as [client|]; [|done].
  cbn [testAccCheckLinodeSSHKeyExists testAccCheckLinodeSSHKeyDestroy
       testAccCheckLinodeVolumeDestroy].
  split; [by rewrite sshKeyExistsLoop_ofType|].
  split; apply destroyLoop_ofType.
Qed.

(** *** What a passing check has seen *)

(** A reply the destroy checks take for "gone": an error that is not a
    linodego error with a code other than 404. *)
Lemma destroyLoop_passes typeName call get stillExists requestFailed resources w :
  failure (destroyLoop Atoi typeName call get stillExists requestFailed resources w)
  = None ->
  Forall2 (fun rs ev =>
             exists id err,
               Atoi (Primary_ID rs) = Some id /\ id <> 0
               /\ ev = (call id, Some err) /\ isOtherAPIError err = false)
    (ofType typeName resources)
    (requests (destroyLoop Atoi typeName call get stillExists requestFailed
                 resources w)).
Proof.
  revert w. induction resources as [|rs rest IH]; intros w.
  { intros _. constructor. }
  rewrite ofType_cons. cbn [destroyLoop].
  destruct (String.eqb (ResourceState_Type rs) typeName); cbn [negb]; [|apply IH].
  destruct (Atoi (Primary_ID rs)) as [id|] eqn:Hid; [|discriminate].
  destruct (Z.eqb_spec id 0) as [->|Hnonzero]; [discriminate|].
  destruct (get id w) as [[err|] w']; [|discriminate].
  destruct (isOtherAPIError err) eqn:Herr; [discriminate|].
  cbn [sent failure requests]. intros Hpass.
  constructor; [|by apply IH]. by exists id, err.
Qed.

(** X16. A destroy check that passes has sent one get for every resource of
    its type, in the order of the state, for the parsed ID, which is not 0;
    and every one of these gets has failed, with a 404 or with an error that
    is no linodego error at all. *)
Theorem Destroy_passes client resources w :
  (failure (KeyDestroy (ProviderClient client) resources w) = None ->
   Forall2 (fun rs ev =>
              exists id err,
                Atoi (Primary_ID rs) = Some id /\ id <> 0
                /\ ev = (CallGetSSHKey id, Some err)
                /\ isOtherAPIError err = false)
     (ofType "linode_sshkey" resources)
     (requests (KeyDestroy (ProviderClient client) resources w)))
  /\ (failure (VolumeDestroy (ProviderClient client) resources w) = None ->
      Forall2 (fun rs ev =>
                 exists id err,
                   Atoi (Primary_ID rs) = Some id /\ id <> 0
                   /\ ev = (CallGetVolume id, Some err)
                   /\ isOtherAPIError err = false)
        (ofType "linode_volume" resources)
        (requests (VolumeDestroy (ProviderClient client) resources w))).
Proof.
  split; apply destroyLoop_passes.
Qed.

(** X17. The existence check of SSH keys, when it passes, has sent one get
    for every SSH key resource, in the order of the state, for the parsed
    ID, and every get has succeeded. *)
Theorem KeyExists_passes client resources w checked :
  KeyExists (ProviderClient client) resources w = Return checked ->
  failure checked = None ->
  Forall2 (fun rs ev =>
             exists id, Atoi (Primary_ID rs) = Some id
                        /\ ev = (CallGetSSHKey id, None))
    (ofType "linode_sshkey" resources) (requests checked).
Proof.
  intros [= <-]. revert w. induction resources as [|rs rest IH]; intros w.
  { intros _. constructor. }
  rewrite ofType_cons. cbn [sshKeyExistsLoop].
  destruct (String.eqb (ResourceState_Type rs) "linode_sshkey"); cbn [negb];
    [|apply IH].
  destruct (Atoi (Primary_ID rs)) as [id|] eqn:Hid; [|discriminate].
  destruct (GetSSHKey client id w) as [[key|err] w']; [|discriminate].
  cbn [sent failure requests errorOf]. intros Hpass.
  constructor; [|by apply IH]. by exists id.
Qed.

(** *** The destroy checks when the API cannot be reached *)

Lemma destroyLoop_unreachable typeName call get stillExists requestFailed
    resources w :
  (forall id w, exists text w', get id w = (Some (PlainError text), w')) ->
  Forall (fun rs => ResourceState_Type rs = typeName ->
                    exists id, Atoi (Primary_ID rs) = Some id /\ id <> 0)
    resources ->
  failure (destroyLoop Atoi typeName call get stillExists requestFailed resources w)
  = None.
Proof.
  intros Hdown Hids. revert w.
  induction Hids as [|rs rest Hrs _ IH]; intros w; [reflexivity|].
  cbn [destroyLoop].
  destruct (String.eqb_spec (ResourceState_Type rs) typeName) as [Htype|_];
    cbn [negb]; [|apply IH].
  destruct (Hrs Htype) as (id & -> & Hid).
  apply Z.eqb_neq in Hid as ->.
  destruct (Hdown id w) as (text & w' & ->). cbn [isOtherAPIError sent failure].
  apply IH.
Qed.

(** X18. When every get fails with an error that is no linodego error (the
    API cannot be reached, say), the destroy check of SSH keys passes, as if
    every key were gone, provided the IDs parse to integers other than 0. *)
Theorem KeyDestroy_passes_when_unreachable client resources w :
  (forall id w, exists text w',
      GetSSHKey client id w = (inr (PlainError text), w')) ->
  Forall (fun rs => ResourceState_Type rs = "linode_sshkey" ->
                    exists id, Atoi (Primary_ID rs) = Some id /\ id <> 0)
    resources ->
  failure (KeyDestroy (ProviderClient client) resources w) = None.
Proof.
  intros Hdown Hids. apply destroyLoop_unreachable; [|exact Hids].
  intros id w0. destruct (Hdown id w0) as (text & w' & Hget).
  exists text, w'. unfold getSSHKeyError. by rewrite Hget.
Qed.

(** X19. When every get fails with an error that is no linodego error, the
    destroy check of volumes passes, as if every volume were gone, provided
    the IDs parse to integers other than 0. *)
Theorem VolumeDestroy_passes_when_unreachable client resources w :
  (forall id w, exists text w',
      GetVolume client id w = (inr (PlainError text), w')) ->
  Forall (fun rs => ResourceState_Type rs = "linode_volume" ->
                    exists id, Atoi (Primary_ID rs) = Some id /\ id <> 0)
    resources ->
  failure (VolumeDestroy (ProviderClient client) resources w) = None.
Proof.
  intros Hdown Hids. apply destroyLoop_unreachable; [|exact Hids].
  intros id w0. destruct (Hdown id w0) as (text & w' & Hget).
  exists text, w'. unfold getVolumeError. by rewrite Hget.
Qed.

(** *** Existence against destruction *)


(** X21. A state without resources of the type passes the check without a
    request: the existence check of SSH keys succeeds on a state that holds
    no SSH key at all, and so do the two destroy checks. *)
Theorem checks_pass_on_no_resource client resources w :
  (ofType "linode_sshkey" resources = [] ->
   KeyExists (ProviderClient client) resources w = Return (finish None w)
   /\ KeyDestroy (ProviderClient client) resources w = finish None w)
  /\ (ofType "linode_volume" resources = [] ->
      VolumeDestroy (ProviderClient client) resources w = finish None w).
Proof.
  split; [intros Hnone; split | intros Hnone].
  - cbn [testAccCheckLinodeSSHKeyExists].
    by rewrite sshKeyExistsLoop_ofType, Hnone.
  - cbn [testAccCheckLinodeSSHKeyDestroy]. by rewrite destroyLoop_ofType, Hnone.
  - cbn [testAccCheckLinodeVolumeDestroy]. by rewrite destroyLoop_ofType, Hnone.
Qed.

(** *** The existence check of a volume *)

(** X22. The existence check of a volume passes exactly when the named
    resource is in the state, its ID is not empty and parses, and the get of
    that ID succeeds; it then has sent this one get and handed the volume
    found to the caller. *)
Theorem VolumeExists_passes name volume client
    (resources : gmap string ResourceState) w checked volume' :
  VolumeExists name volume (ProviderClient client) resources w
  = Return (checked, volume') ->
  failure checked = None
  <-> exists rs id w',
        resources !! name = Some rs
        /\ Primary_ID rs <> ""
        /\ Atoi (Primary_ID rs) = Some id
        /\ GetVolume client id w = (inl volume', w')
        /\ checked = sent (CallGetVolume id, None) (finish None w').
Proof.
  cbn [testAccCheckLinodeVolumeExists].
  destruct (resources !! name) as [rs|] eqn:Hrs.
  2: { intros [= <- <-]. split; [discriminate|]. by intros (? & ? & ? & [=] & _). }
  destruct (String.eqb_spec (Primary_ID rs) "") as [Hempty|Hid].
  { intros [= <- <-]. split; [discriminate|].
    by intros (? & ? & ? & [= <-] & Hne & _). }
  destruct (Atoi (Primary_ID rs)) as [id|] eqn:Hatoi.
  2: { intros [= <- <-]. split; [discriminate|].
       intros (? & ? & ? & [= <-] & _ & Hsome & _). congruence. }
  destruct (GetVolume client id w) as [[found|err] w'] eqn:Hget;
    intros [= <- <-]; cbn [sent finish failure].
  - split; [intros _ | reflexivity]. by exists rs, id, w'.
  - split; [discriminate|].
    intros (? & ? & ? & [= <-] & _ & Hsome & Hfound & _). congruence.
Qed.

(** X23. When the existence check of a volume returns an error, what the
    caller's pointer holds is left as it was, and at most one request has
    been sent; none at all when the resource is missing from the state or
    has an empty ID. *)
Theorem VolumeExists_fails name volume client
    (resources : gmap string ResourceState) w checked volume' err :
  VolumeExists name volume (ProviderClient client) resources w
  = Return (checked, volume') ->
  failure checked = Some err ->
  volume' = volume
  /\ (length (requests checked) <= 1)%nat
  /\ (match resources !! name with
      | None => True
      | Some rs => Primary_ID rs = ""
      end -> requests checked = [] /\ after checked = w).
Proof.
  cbn [testAccCheckLinodeVolumeExists].
  destruct (resources !! name) as [rs|];
    [|intros [= <- <-] _; cbn; auto].
  destruct (String.eqb_spec (Primary_ID rs) "") as [Hempty|Hid];
    [intros [= <- <-] _; cbn; auto|].
  destruct (Atoi (Primary_ID rs)) as [id|]; [|intros [= <- <-] _; cbn; auto].
  destruct (GetVolume client id w) as [[found|err'] w'];
    intros [= <- <-]; cbn; [discriminate|]. intros _.
  split; [reflexivity|]. split; [constructor|]. intros Hempty. by destruct Hid.
Qed.
End ChecksProps.

(** ** The configurations of the acceptance tests *)

Lemma append_assoc (a b c : string) : (a +:+ b) +:+ c = a +:+ b +:+ c.
Proof.
  induction a as [|x a IH]; [reflexivity|].
  change (String x ((a +:+ b) +:+ c) = String x (a +:+ b +:+ c)).
  by rewrite IH.
Qed.

Lemma append_empty_l (s : string) : "" +:+ s = s.
Proof. reflexivity. Qed.

(** X24. The updated configurations are the basic ones of the renamed
    resource: that of the SSH key with [_renamed] appended to the label and
    the same key, that of the volume with [_r] appended to the label. *)
Theorem ConfigUpdates_rename (label sshkey volume : string) :
  testAccCheckLinodeSSHKeyConfigUpdates label sshkey
  = testAccCheckLinodeSSHKeyConfigBasic (label +:+ "_renamed") sshkey
  /\ testAccCheckLinodeVolumeConfigUpdates volume
     = testAccCheckLinodeVolumeConfigBasic (volume +:+ "_r").
Proof.
  unfold testAccCheckLinodeSSHKeyConfigUpdates, testAccCheckLinodeSSHKeyConfigBasic,
    testAccCheckLinodeVolumeConfigUpdates, testAccCheckLinodeVolumeConfigBasic.
  rewrite !append_assoc. split; reflexivity.
Qed.

(** X25. The attached and the resized configurations keep the volume of the
    basic one: the attached configuration is an instance block followed by
    the basic configuration, and the resized one is the basic configuration
    with a size line before its closing brace. *)
Theorem ConfigAttached_extends_basic (volume : string) :
  testAccCheckLinodeVolumeConfigAttached volume
  = lines ("" :: instanceBlock "foobar" "foobar")
    +:+ testAccCheckLinodeVolumeConfigBasic volume
  /\ exists body,
       testAccCheckLinodeVolumeConfigBasic volume = body +:+ "}"
       /\ testAccCheckLinodeVolumeConfigResized volume
          = body +:+ tab +:+ "size = 30" +:+ newline +:+ "}".
Proof.
  split.
  - unfold testAccCheckLinodeVolumeConfigAttached,
      testAccCheckLinodeVolumeConfigBasic, lines, instanceBlock.
    cbn [app String.concat]. rewrite !append_assoc, !append_empty_l.
    reflexivity.
  - exists (lines [ "";
                    "resource " +:+ quoted "linode_volume" +:+ " "
                      +:+ quoted "foobar" +:+ " {";
                    tab +:+ "label = " +:+ quote +:+ volume +:+ quote;
                    tab +:+ "region = " +:+ quoted "us-west";
                    "" ]).
    unfold testAccCheckLinodeVolumeConfigResized,
      testAccCheckLinodeVolumeConfigBasic, lines.
    cbn [String.concat]. rewrite !append_assoc, !append_empty_l.
    split; reflexivity.
Qed.

(** ** The further properties at work on the scripted clients *)

Section ScriptedMore.

Import Script.

Abbreviation Read :=
  (@resourceLinodeImageRead Time formatRFC3339 linodegoErrorString World).
Abbreviation Create :=
  (@resourceLinodeImageCreate Time formatRFC3339 linodegoErrorString World).
Abbreviation Update :=
  (@resourceLinodeImageUpdate Time formatRFC3339 linodegoErrorString World).

(** The options Create builds from [fresh]. *)
Abbreviation freshOptions :=
  {| CreateOptions_DiskID := 100; CreateOptions_Label := "img";
     CreateOptions_Description := "an image" |}.

(** Read whose own get fails while Exists finds the image. *)
Lemma Read_panics_iff_witness :
  exists reason,
    fst (run (Read meta) stored [Failed serverError; GotImage image1])
    = Panic reason.
Proof.
  apply (Read_panics_iff formatRFC3339 linodegoErrorString client stored
           [Failed serverError; GotImage image1] (inr serverError)
           [GotImage image1] (inl image1) [] eq_refl eq_refl).
  exists serverError, image1. split; reflexivity.
Defined.

(** Read when the get of Exists meets a server error. *)
Lemma Read_error_wraps_witness :
  let res := run (Read meta) stored [GotImage image1; Failed serverError] in
  fst res = Return (Some (PlainError
    "Error finding the specified Linode Image: Error getting Linode Image ID private/67: [500] Internal error"))
  /\ data (snd res) = stored.
Proof.
  exact (Read_error_wraps formatRFC3339 linodegoErrorString client stored
           [GotImage image1; Failed serverError] (inl image1)
           [Failed serverError] serverError [] eq_refl eq_refl eq_refl).
Defined.

Lemma Read_error_only_from_exists_witness :
  data (snd (run (Read meta) stored [GotImage image1; Failed serverError]))
  = stored.
Proof.
  refine (proj1 (Read_error_only_from_exists formatRFC3339 linodegoErrorString
                   client stored [GotImage image1; Failed serverError]
                   (PlainError _) eq_refl)).
Defined.

(** Two Reads of an image that does not change. *)
Lemma Read_idempotent_witness :
  let script := [GotImage image1; GotImage image1; GotImage image1; GotImage image1] in
  let once := run (Read meta) stored script in
  data (snd (Read meta (snd once))) = data (snd once).
Proof.
  intros script once.
  refine (proj2 (proj2 (Read_idempotent formatRFC3339 linodegoErrorString client
           stored script image1 _ image1 _ _ image1 _ eq_refl eq_refl eq_refl
           eq_refl))).
Defined.

(** A Create that goes through. *)
Lemma Create_requests_witness :
  let script := [Succeeded; GotImage image1; Succeeded;
                 GotImage image1; GotImage image1; GotImage image1] in
  trace (snd (run (Create meta) fresh script)) !! 1%nat
  = Some (CallCreateImage freshOptions, GotImage image1)
  /\ 1%nat = 1%nat
  /\ freshOptions
     = {| CreateOptions_DiskID := GetInt fresh "disk_id";
          CreateOptions_Label := GetString fresh "label";
          CreateOptions_Description := GetString fresh "description" |}.
Proof.
  intros script. split; [reflexivity|].
  exact (Create_requests formatRFC3339 linodegoErrorString client fresh script
           1%nat (CallCreateImage freshOptions) (GotImage image1) eq_refl).
Defined.

Lemma Create_success_witness :
  let script := [Succeeded; GotImage image1; Succeeded;
                 GotImage image1; GotImage image1; GotImage image1] in
  length (trace (snd (run (Create meta) fresh script))) = 6%nat
  /\ partial (data (snd (run (Create meta) fresh script))) = false.
Proof.
  intros script.
  destruct (Create_success formatRFC3339 linodegoErrorString client fresh script
              eq_refl)
    as (opts & image & confirmed & own & last & Htrace & Hpartial & _).
  split; [exact (f_equal length Htrace) | exact Hpartial].
Defined.


Lemma Create_request_failure_witness :
  let res := run (Create meta) fresh [Succeeded; Failed serverError] in
  fst res = Return (Some (PlainError
              "Error creating a Linode Image: [500] Internal error"))
  /\ length (trace (snd res)) = 2%nat.
Proof.
  destruct (Create_request_failure formatRFC3339 linodegoErrorString client fresh
              [Succeeded; Failed serverError] [Failed serverError] freshOptions
              serverError [] eq_refl eq_refl eq_refl)
    as (Hout & Htrace & _).
  split; [exact Hout | exact (f_equal length Htrace)].
Defined.

Lemma Update_fetch_failure_witness :
  fst (run (Update meta) renamed [Failed serverError])
  = Return (Some (PlainError
      "Error fetching data about the current Image: [500] Internal error")).
Proof.
  exact (f_equal fst
           (Update_fetch_failure formatRFC3339 linodegoErrorString client renamed
              [Failed serverError] serverError [] eq_refl)).
Defined.

Lemma Update_request_failure_witness :
  fst (run (Update meta) renamed [GotImage image1; Failed serverError])
  = Return (Some serverError).
Proof.
  refine (proj1 (Update_request_failure formatRFC3339 linodegoErrorString client
                   renamed [GotImage image1; Failed serverError] "private/67"
                   {| UpdateOptions_Label := "img2";
                      UpdateOptions_Description := None |} serverError _)).
  vm_compute. right. left. reflexivity.
Defined.

Lemma Update_after_request_witness :
  let script := [GotImage image1; GotImage image1; GotImage image1; GotImage image1] in
  length (trace (snd (run (Update meta) renamed script))) = 4%nat.
Proof.
  intros script.
  destruct (Update_after_request formatRFC3339 linodegoErrorString client renamed
              script "private/67"
              {| UpdateOptions_Label := "img2"; UpdateOptions_Description := None |}
              image1)
    as (first & own & last & Htrace & _).
  - vm_compute. right. left. reflexivity.
  - exact (f_equal length Htrace).
Defined.

End ScriptedMore.

Section ScriptedChecks.

Import CheckScript.

Abbreviation KeyExists :=
  (@testAccCheckLinodeSSHKeyExists World SSHKey Volume Script.linodegoErrorString Atoi).
Abbreviation KeyDestroy := (@testAccCheckLinodeSSHKeyDestroy World SSHKey Volume Atoi).
Abbreviation VolumeDestroy := (@testAccCheckLinodeVolumeDestroy World SSHKey Volume Atoi).
Abbreviation VolumeExists :=
  (@testAccCheckLinodeVolumeExists World SSHKey Volume Script.linodegoErrorString Atoi).

Example Atoi_12 : Atoi "12" = Some 12 /\ Atoi "" = None /\ Atoi "x1" = None.
Proof. repeat split. Qed.

(** Nothing is left on the remote side: the destroy check asks for the two
    keys and passes. *)
Lemma Destroy_passes_witness :
  length (requests (KeyDestroy (ProviderClient client) resources [])) = 2%nat.
Proof.
  exact (eq_sym (Forall2_length _ _ _
           (proj1 (Destroy_passes Atoi client resources []) eq_refl))).
Defined.

(** Both keys are there: the existence check asks for them and passes. *)
Lemma KeyExists_passes_witness :
  length (requests (sshKeyExistsLoop Script.linodegoErrorString Atoi client
                      resources [12; 13]))
  = 2%nat.
Proof.
  exact (eq_sym (Forall2_length _ _ _
           (KeyExists_passes Script.linodegoErrorString Atoi client resources
              [12; 13] _ eq_refl eq_refl))).
Defined.

(** The keys are still there, and the API cannot be reached: the destroy
    checks pass all the same. *)
Lemma KeyDestroy_passes_when_unreachable_witness :
  failure (KeyDestroy (ProviderClient unreachable) resources [12; 13]) = None.
Proof.
  apply (KeyDestroy_passes_when_unreachable Atoi unreachable resources [12; 13]).
  - intros id w. by exists "dial tcp: i/o timeout", w.
  - repeat first [apply List.Forall_nil | apply List.Forall_cons].
    all: intros Htype; try discriminate Htype.
    all: eexists; split; [reflexivity | discriminate].
Defined.

Lemma VolumeDestroy_passes_when_unreachable_witness :
  failure (VolumeDestroy (ProviderClient unreachable) resources [7]) = None.
Proof.
  apply (VolumeDestroy_passes_when_unreachable Atoi unreachable resources [7]).
  - intros id w. by exists "dial tcp: i/o timeout", w.
  - repeat first [apply List.Forall_nil | apply List.Forall_cons].
    all: intros Htype; try discriminate Htype.
    all: eexists; split; [reflexivity | discriminate].
Defined.


(** A state with a volume only. *)
Lemma checks_pass_on_no_resource_witness :
  KeyExists (ProviderClient client) [volume "7"] [7]
  = Return (finish None [7]).
Proof.
  exact (proj1 (proj1 (checks_pass_on_no_resource Script.linodegoErrorString Atoi
                         client [volume "7"] [7]) eq_refl)).
Defined.

(** The volume of the state is there. *)
Lemma VolumeExists_passes_witness :
  exists rs id w',
    named !! "linode_volume.foobar" = Some rs
    /\ Primary_ID rs <> ""
    /\ Atoi (Primary_ID rs) = Some id
    /\ GetVolume client id [7] = (inl 7, w')
    /\ sent (CallGetVolume 7, None) (finish None [7])
       = sent (CallGetVolume id, None) (finish None w').
Proof.
  apply (VolumeExists_passes Script.linodegoErrorString Atoi
           "linode_volume.foobar" 0 client named [7] _ 7).
  - vm_compute. reflexivity.
  - reflexivity.
Defined.

(** The volume of the state is gone: the caller's volume is left alone. *)
Lemma VolumeExists_fails_witness :
  let checked :=
    sent (CallGetVolume 7, Some (LinodegoError 404 "Not found"))
      (finish (Some (PlainError
         "Error retrieving state of Volume tf_test_volume: [404] Not found")) []) in
  VolumeExists "linode_volume.foobar" 0 (ProviderClient client) named []
  = Return (checked, 0)
  /\ (length (requests checked) <= 1)%nat.
Proof.
  intros checked.
  assert (VolumeExists "linode_volume.foobar" 0 (ProviderClient client) named []
          = Return (checked, 0)) as Hrun by (vm_compute; reflexivity).
  split; [exact Hrun|].
  exact (proj1 (proj2 (VolumeExists_fails Script.linodegoErrorString Atoi
                         "linode_volume.foobar" 0 client named [] checked 0 _
                         Hrun eq_refl))).
Defined.

End ScriptedChecks.
